(** * raspizza: capture pipeline and TFLite inference adapter

    A shallow embedding of [ModelInterpreter] (ModelInterpreter.h/.cpp),
    of the consumer [processFrameAndInfer] (main.cpp) and of
    [CameraHandler] (CameraHandler.h/.cpp), with the properties of the
    frame-buffer lifecycle and of the tensor marshaling that the
    specification states about them.

    Conventions.
    - C++ [int] / [unsigned] / [size_t] values are [Z]; where the source
      relies on a fixed width the wrap-around is written out.
    - [uint8_t] is [Byte.byte]; [float] is an IEEE-754 binary32 value,
      represented by [spec_float] with precision 24 and [emax] 128.
    - [std::vector] is [list], indexed with stdpp's lookup [!!]; an index
      out of range, a null dereference and a signed overflow are
      undefined behaviour in the source and are reported as [Undefined].
    - Calls into libcamera, OpenCV and TensorFlow Lite are parameters of
      the model (records of results), never fixed to one behaviour.
    - What goes to [std::cerr] is kept, as diagnostics or trace events;
      the progress lines on [std::cout] are left out. *)

From Stdlib Require Import ZArith Strings.Byte String SpecFloat.
From stdpp Require Import base tactics option list.

Local Open Scope Z_scope.

(** ** Undefined behaviour and early results *)

Inductive Fault :=
| NullDereference
| OutOfBounds (index : Z)
| SignedOverflow.

Inductive Outcome (A : Type) :=
| Returns (a : A)
| Undefined (f : Fault).
Arguments Returns {A} a.
Arguments Undefined {A} f.

#[global] Instance Outcome_ret : MRet Outcome := fun _ a => Returns a.
#[global] Instance Outcome_bind : MBind Outcome := fun _ _ k m =>
  match m with
  | Returns a => k a
  | Undefined f => Undefined f
  end.

#[global] Instance Outcome_fmap : FMap Outcome := fun _ _ g m =>
  match m with
  | Returns a => Returns (g a)
  | Undefined f => Undefined f
  end.

Definition deref {A} (p : option A) : Outcome A :=
  match p with
  | Some a => Returns a
  | None => Undefined NullDereference
  end.

(** [v[i]] on a [std::vector] or a C array of known extent. *)
Definition index {A} (v : list A) (i : Z) : Outcome A :=
  if i <? 0 then Undefined (OutOfBounds i)
  else match v !! Z.to_nat i with
       | Some a => Returns a
       | None => Undefined (OutOfBounds i)
       end.

(** ** Machine integers *)

Definition INT_MIN : Z := - 2 ^ 31.
Definition INT_MAX : Z := 2 ^ 31 - 1.

Definition in_int (z : Z) : bool := (INT_MIN <=? z) && (z <=? INT_MAX).

(** Signed arithmetic on [int]: the mathematical result when it fits. *)
Definition int_op (z : Z) : Outcome Z :=
  if in_int z then Returns z else Undefined SignedOverflow.

Definition uint32 (z : Z) : Z := z mod 2 ^ 32.
Definition size_t (z : Z) : Z := z mod 2 ^ 64.

Definition uint8_val (b : byte) : Z := Z.of_N (Byte.to_N b).

(** ** binary32 *)

Module Float32.

Definition prec : Z := 24.
Definition emax : Z := 128.

Definition float := spec_float.

Definition zero : float := S754_zero false.
Definition one : float := SFone prec emax.

(** [static_cast<float>(z)] and the implicit [int] to [float]
    conversion: round to nearest, ties to even. *)
Definition of_int (z : Z) : float := binary_normalize prec emax z 0 false.

(** [m * 2^e] rounded to binary32, for literals. *)
Definition of_scaled (m e : Z) : float := binary_normalize prec emax m e false.

Definition mul : float -> float -> float := SFmul prec emax.

(** [x > y]; false as soon as one side is a NaN. *)
Definition gt (x y : float) : bool := SFltb y x.

(** The integer a float denotes, when it denotes one. *)
Definition to_int_exact (f : float) : option Z :=
  match f with
  | S754_zero _ => Some 0
  | S754_finite s m e =>
      let mag :=
        match e with
        | Z0 => Some (Zpos m)
        | Zpos p => Some (Zpos m * 2 ^ Zpos p)
        | Zneg p =>
            if Zpos m mod 2 ^ Zpos p =? 0
            then Some (Zpos m / 2 ^ Zpos p) else None
        end in
      (if s then Z.opp else id) <$> mag
  | _ => None
  end.

End Float32.

Abbreviation float := Float32.float.

(** ** The TensorFlow Lite interface the adapter consumes *)

Inductive TfLiteStatus := kTfLiteOk | kTfLiteError.

Inductive TfLiteType :=
| kTfLiteNoType
| kTfLiteFloat32
| kTfLiteInt32
| kTfLiteUInt8
| kTfLiteInt64
| kTfLiteString
| kTfLiteBool
| kTfLiteInt16
| kTfLiteInt8
| kTfLiteFloat16.

#[global] Instance TfLiteType_eq_dec : EqDecision TfLiteType.
Proof. solve_decision. Defined.

#[global] Instance TfLiteStatus_eq_dec : EqDecision TfLiteStatus.
Proof. solve_decision. Defined.

(** The payload of a tensor, seen through its element type. *)
Inductive TensorData :=
| U8Data (bytes : list byte)
| F32Data (values : list float)
| RawData (bytes : list byte).

Record TfLiteQuantizationParams := {
  scale : float;
  zero_point : Z
}.

Record TfLiteTensor := {
  type : TfLiteType;
  dims : list Z;               (* dims->size is the length, dims->data the elements *)
  params : TfLiteQuantizationParams;
  data : TensorData
}.

(** [typed_tensor<T>]: the data pointer when the element type is [T],
    a null pointer otherwise. *)
Definition typed_uint8 (t : TfLiteTensor) : option (list byte) :=
  match type t, data t with
  | kTfLiteUInt8, U8Data l => Some l
  | _, _ => None
  end.

Definition typed_float (t : TfLiteTensor) : option (list float) :=
  match type t, data t with
  | kTfLiteFloat32, F32Data l => Some l
  | _, _ => None
  end.

(** An interpreter with its tensors allocated: input tensor 0, and what
    [Invoke] answers for a given content of that tensor (the status and
    output tensor 0, null when there is none). *)
Record Interpreter := {
  input_tensor : TfLiteTensor;
  Invoke : TensorData -> TfLiteStatus * option TfLiteTensor
}.

Definition elements (d : list Z) : Z := foldr Z.mul 1 d.

(** A tensor whose payload has the element type and the extent its
    shape announces. *)
Definition tensor_wf (t : TfLiteTensor) : Prop :=
  match type t, data t with
  | kTfLiteUInt8, U8Data l => Z.of_nat (length l) = elements (dims t)
  | kTfLiteFloat32, F32Data l => Z.of_nat (length l) = elements (dims t)
  | kTfLiteUInt8, _ | kTfLiteFloat32, _ => False
  | _, _ => True
  end.

(** ** ModelInterpreter.h *)

Record Detection := {
  class_id : Z;
  confidence : float
}.

Record ModelInterpreter := {
  class_labels_ : list string;
  interpreter_ : option Interpreter;
  model_input_width_ : Z;
  model_input_height_ : Z;
  model_input_channels_ : Z;
  model_input_type_ : TfLiteType;
  model_output_type_ : TfLiteType;
  model_input_scale_ : float;
  model_input_zero_ : Z;
  model_output_scale_ : float;
  model_output_zero_ : Z;
  x_scale_ : float;
  y_scale_ : float
}.

(** The constructor body is empty: every member has its default member
    initializer. *)
Definition ModelInterpreter_new : ModelInterpreter := {|
  class_labels_ := [];
  interpreter_ := None;
  model_input_width_ := 0;
  model_input_height_ := 0;
  model_input_channels_ := 0;
  model_input_type_ := kTfLiteNoType;
  model_output_type_ := kTfLiteNoType;
  model_input_scale_ := Float32.zero;
  model_input_zero_ := 0;
  model_output_scale_ := Float32.zero;
  model_output_zero_ := 0;
  x_scale_ := Float32.one;
  y_scale_ := Float32.one
|}.

Definition getInputWidth (this : ModelInterpreter) : Z := model_input_width_ this.
Definition getInputHeight (this : ModelInterpreter) : Z := model_input_height_ this.
Definition getClassLabels (this : ModelInterpreter) : list string := class_labels_ this.

(** What is written to [std::cerr]. *)
Inductive Diagnostic :=
| FailedToLoadLabels
| FailedToLoadModel
| FailedToBuildInterpreter
| FailedToAllocateTensors
| InvalidInputTensorDimensions (size : Z)
| UnsupportedInputTensorType (t : TfLiteType)
| FailedToInvoke
| FailedToGetOutputTensor
| UnexpectedOutputShape.

(** ** ModelInterpreter::init *)

(** What the file system and the TFLite builder answer during [init]. *)
Record ModelFiles := {
  label_file : option (list string);       (* the lines of labels.txt, when it opens *)
  BuildFromFile : bool;                    (* the model file parses *)
  builder : option Interpreter;            (* the interpreter, when the builder answers kTfLiteOk *)
  AllocateTensors : TfLiteStatus
}.

Record InitResult := {
  init_ok : bool;
  init_this : ModelInterpreter;
  init_cerr : list Diagnostic
}.

Definition set_labels (this : ModelInterpreter) (l : list string) : ModelInterpreter := {|
  class_labels_ := l;
  interpreter_ := interpreter_ this;
  model_input_width_ := model_input_width_ this;
  model_input_height_ := model_input_height_ this;
  model_input_channels_ := model_input_channels_ this;
  model_input_type_ := model_input_type_ this;
  model_output_type_ := model_output_type_ this;
  model_input_scale_ := model_input_scale_ this;
  model_input_zero_ := model_input_zero_ this;
  model_output_scale_ := model_output_scale_ this;
  model_output_zero_ := model_output_zero_ this;
  x_scale_ := x_scale_ this;
  y_scale_ := y_scale_ this
|}.

Definition set_interpreter (this : ModelInterpreter) (i : option Interpreter) : ModelInterpreter := {|
  class_labels_ := class_labels_ this;
  interpreter_ := i;
  model_input_width_ := model_input_width_ this;
  model_input_height_ := model_input_height_ this;
  model_input_channels_ := model_input_channels_ this;
  model_input_type_ := model_input_type_ this;
  model_output_type_ := model_output_type_ this;
  model_input_scale_ := model_input_scale_ this;
  model_input_zero_ := model_input_zero_ this;
  model_output_scale_ := model_output_scale_ this;
  model_output_zero_ := model_output_zero_ this;
  x_scale_ := x_scale_ this;
  y_scale_ := y_scale_ this
|}.

Definition set_input_details (this : ModelInterpreter) (h w c : Z) (t : TfLiteType)
  : ModelInterpreter := {|
  class_labels_ := class_labels_ this;
  interpreter_ := interpreter_ this;
  model_input_width_ := w;
  model_input_height_ := h;
  model_input_channels_ := c;
  model_input_type_ := t;
  model_output_type_ := model_output_type_ this;
  model_input_scale_ := model_input_scale_ this;
  model_input_zero_ := model_input_zero_ this;
  model_output_scale_ := model_output_scale_ this;
  model_output_zero_ := model_output_zero_ this;
  x_scale_ := x_scale_ this;
  y_scale_ := y_scale_ this
|}.

Definition set_output_type (this : ModelInterpreter) (t : TfLiteType) : ModelInterpreter := {|
  class_labels_ := class_labels_ this;
  interpreter_ := interpreter_ this;
  model_input_width_ := model_input_width_ this;
  model_input_height_ := model_input_height_ this;
  model_input_channels_ := model_input_channels_ this;
  model_input_type_ := model_input_type_ this;
  model_output_type_ := t;
  model_input_scale_ := model_input_scale_ this;
  model_input_zero_ := model_input_zero_ this;
  model_output_scale_ := model_output_scale_ this;
  model_output_zero_ := model_output_zero_ this;
  x_scale_ := x_scale_ this;
  y_scale_ := y_scale_ this
|}.

Definition ModelInterpreter_init (files : ModelFiles) (this : ModelInterpreter) : InitResult :=
  match label_file files with
  | None => {| init_ok := false; init_this := this; init_cerr := [FailedToLoadLabels] |}
  | Some lines =>
      let this := set_labels this lines in
      if negb (BuildFromFile files) then
        {| init_ok := false; init_this := this; init_cerr := [FailedToLoadModel] |}
      else
        match builder files with
        | None =>
            {| init_ok := false; init_this := this; init_cerr := [FailedToBuildInterpreter] |}
        | Some interp =>
            let this := set_interpreter this (Some interp) in
            if decide (AllocateTensors files = kTfLiteOk) then
              let input_dims := dims (input_tensor interp) in
              match input_dims with
              | [_; h; w; c] =>     (* input_dims->size == 4, NHWC *)
                  {| init_ok := true;
                     init_this := set_input_details this h w c (type (input_tensor interp));
                     init_cerr := [] |}
              | _ =>
                  {| init_ok := false; init_this := this;
                     init_cerr := [InvalidInputTensorDimensions (Z.of_nat (length input_dims))] |}
              end
            else
              {| init_ok := false; init_this := this; init_cerr := [FailedToAllocateTensors] |}
        end
  end.

(** ** ModelInterpreter::runInference *)

Record InferenceRun := {
  run_this : ModelInterpreter;          (* the object after the call *)
  run_input : option TensorData;        (* input tensor 0 as handed to Invoke *)
  run_cerr : list Diagnostic;
  run_detections : list Detection
}.

(** [memcpy(dst, src, n)] with [n] an [int] converted to [size_t]: the
    first [n] bytes of [dst] are replaced by the first [n] bytes of [src]. *)
Definition memcpy (dst src : list byte) (n : Z) : Outcome (list byte) :=
  if n <? 0 then Undefined (OutOfBounds (size_t n))
  else if Z.of_nat (length src) <? n then Undefined (OutOfBounds (Z.of_nat (length src)))
  else if Z.of_nat (length dst) <? n then Undefined (OutOfBounds (Z.of_nat (length dst)))
  else Returns (take (Z.to_nat n) src ++ drop (Z.to_nat n) dst).

(** [for (int i = 0; i < n; ++i) dst[i] = static_cast<float>(src[i]);] *)
Fixpoint widen_loop (trips : nat) (i : Z) (src : list byte) (dst : list float)
  : Outcome (list float) :=
  match trips with
  | O => Returns dst
  | S trips' =>
      b ← index src i;
      if Z.of_nat (length dst) <=? i then Undefined (OutOfBounds i)
      else widen_loop trips' (i + 1) src (<[Z.to_nat i := Float32.of_int (uint8_val b)]> dst)
  end.

(** The input element count [width * height * channels], an [int]. *)
Definition input_count (this : ModelInterpreter) : Outcome Z :=
  wh ← int_op (model_input_width_ this * model_input_height_ this);
  int_op (wh * model_input_channels_ this).

(** The byte loop: one Detection per class, dequantized with the member
    scale and zero-point. *)
Fixpoint uint8_loop (this : ModelInterpreter) (raw_predictions_data : list byte)
    (trips : nat) (class_id : Z) (detections : list Detection)
  : Outcome (list Detection) :=
  match trips with
  | O => Returns detections
  | S trips' =>
      qval ← index raw_predictions_data class_id;
      d ← int_op (uint8_val qval - model_output_zero_ this);
      let confidence := Float32.mul (model_output_scale_ this) (Float32.of_int d) in
      uint8_loop this raw_predictions_data trips' (class_id + 1)
        (detections ++ [{| class_id := class_id; confidence := confidence |}])
  end.

Fixpoint float_loop (raw_predictions_data : list float)
    (trips : nat) (class_id : Z) (detections : list Detection)
  : Outcome (list Detection) :=
  match trips with
  | O => Returns detections
  | S trips' =>
      confidence ← index raw_predictions_data class_id;
      float_loop raw_predictions_data trips' (class_id + 1)
        (detections ++ [{| class_id := class_id; confidence := confidence |}])
  end.

(** Lines 121-160: everything after a successful [Invoke]. *)
Definition postprocess (this : ModelInterpreter) (input : TensorData)
    (output : option TfLiteTensor) : Outcome InferenceRun :=
  let detections : list Detection := [] in
  match output with
  | None =>
      Returns {| run_this := this; run_input := Some input;
                 run_cerr := [FailedToGetOutputTensor]; run_detections := detections |}
  | Some output_tensor =>
      let this := set_output_type this (type output_tensor) in
      (* read before the shape is looked at *)
      num_classes ← index (dims output_tensor) 1;
      if bool_decide (Z.of_nat (length (dims output_tensor)) ≠ 2)
         || bool_decide (dims output_tensor !! 0%nat ≠ Some 1) then
        Returns {| run_this := this; run_input := Some input;
                   run_cerr := [UnexpectedOutputShape]; run_detections := detections |}
      else
        match model_output_type_ this with
        | kTfLiteUInt8 =>
            detections ←
              match typed_uint8 output_tensor with
              | Some raw_predictions_data =>
                  uint8_loop this raw_predictions_data (Z.to_nat num_classes) 0 detections
              | None =>      (* a null pointer, dereferenced by the first iteration *)
                  if 0 <? num_classes then Undefined NullDereference else Returns detections
              end;
            Returns {| run_this := this; run_input := Some input;
                       run_cerr := []; run_detections := detections |}
        | kTfLiteFloat32 =>
            detections ←
              match typed_float output_tensor with
              | Some raw_predictions_data =>
                  float_loop raw_predictions_data (Z.to_nat num_classes) 0 detections
              | None =>
                  if 0 <? num_classes then Undefined NullDereference else Returns detections
              end;
            Returns {| run_this := this; run_input := Some input;
                       run_cerr := []; run_detections := detections |}
        | _ =>
            Returns {| run_this := this; run_input := Some input;
                       run_cerr := []; run_detections := detections |}
        end
  end.

(** Lines 96-112: the image is marshalled into input tensor 0. [None]
    is the early return for an unsupported input element type. *)
Definition marshal_input (this : ModelInterpreter) (image_data : list byte)
  : Outcome (option TensorData) :=
  match model_input_type_ this with
  | kTfLiteUInt8 =>
      interp ← deref (interpreter_ this);
      input_tensor_ptr ← deref (typed_uint8 (input_tensor interp));
      n ← input_count this;
      written ← memcpy input_tensor_ptr image_data n;
      Returns (Some (U8Data written))
  | kTfLiteFloat32 =>
      interp ← deref (interpreter_ this);
      n ← input_count this;
      match typed_float (input_tensor interp) with
      | Some input_tensor_ptr =>
          written ← widen_loop (Z.to_nat n) 0 image_data input_tensor_ptr;
          Returns (Some (F32Data written))
      | None =>          (* a null pointer, dereferenced by the first iteration *)
          if 0 <? n then Undefined NullDereference
          else Returns (Some (data (input_tensor interp)))
      end
  | _ => Returns None
  end.

Definition runInference (this : ModelInterpreter) (image_data : list byte)
  : Outcome InferenceRun :=
  let detections : list Detection := [] in
  marshalled ← marshal_input this image_data;
  match marshalled with
  | None =>
      Returns {| run_this := this; run_input := None;
                 run_cerr := [UnsupportedInputTensorType (model_input_type_ this)];
                 run_detections := detections |}
  | Some input =>
      interp ← deref (interpreter_ this);
      let '(status, output) := Invoke interp input in
      if decide (status ≠ kTfLiteOk) then
        Returns {| run_this := this; run_input := Some input;
                   run_cerr := [FailedToInvoke]; run_detections := detections |}
      else postprocess this input output
  end.

(** ** main.cpp: the consumer's selection of the best detection *)

(** Lines 104-113 of [processFrameAndInfer]. [max_confidence] is a
    [double]; a [float] converts to [double] without rounding, so the
    comparison is the comparison of the two values. *)
Fixpoint select_loop (detections : list Detection) (i : Z)
    (argmax : Z) (max_confidence : float) : Z * float :=
  match detections with
  | [] => (argmax, max_confidence)
  | d :: rest =>
      if Float32.gt (confidence d) max_confidence
      then select_loop rest (i + 1) i (confidence d)
      else select_loop rest (i + 1) argmax max_confidence
  end.

Definition select_best (detections : list Detection) : Z * float :=
  let argmax := 0 in
  let max_confidence := Float32.zero in
  select_loop detections 0 argmax max_confidence.

(** ** The libcamera and OpenCV interface the capture side consumes *)

Inductive RequestStatus := RequestPending | RequestComplete | RequestCancelled.

#[global] Instance RequestStatus_eq_dec : EqDecision RequestStatus.
Proof. solve_decision. Defined.

Inductive PixelFormat := NV12 | MJPEG | OtherFormat (fourcc : Z).

Inductive ConfigStatus := Valid | Adjusted | Invalid.

Module Plane.
Record t := { fd : Z; offset : Z; length : Z }.
End Plane.

(** A FrameBuffer has at least one plane: [planes()[0]] always exists. *)
Record FrameBuffer := {
  plane0 : Plane.t;
  more_planes : list Plane.t
}.

Definition planes (b : FrameBuffer) : list Plane.t := plane0 b :: more_planes b.

Record StreamConfiguration := {
  pixelFormat : PixelFormat;
  size_width : Z;
  size_height : Z;
  stride : Z;
  bufferCount : Z
}.

(** A request as [init] builds it: an identity and the buffer that
    [addBuffer] bound to it for the only stream. *)
Record Request := {
  cookie : Z;
  buffer : FrameBuffer
}.

Record Mat := {
  rows : Z;
  cols : Z;
  channels : Z;
  mat_data : list byte
}.

Definition Mat_empty (m : Mat) : bool :=
  (rows m * cols m =? 0) || bool_decide (mat_data m = []).

(** ** CameraHandler.h *)

Record CameraFrame := {
  frame_data : list byte;
  width : Z;
  height : Z
}.

(** A [std::function] call either returns or leaves by an exception. *)
Inductive CallResult := CallReturns | CallThrows.

Record CameraHandler := {
  frame_callback_ : option (CameraFrame -> CallResult);
  stream_ : option StreamConfiguration;      (* nullptr until init assigns it *)
  requests_ : list Request
}.

Definition CameraHandler_new (callback : option (CameraFrame -> CallResult))
  : CameraHandler :=
  {| frame_callback_ := callback; stream_ := None; requests_ := [] |}.

(** ** CameraHandler::init *)

(** What the camera stack answers during [init]. *)
Record CameraStack := {
  manager_start : Z;
  cameras : list string;
  manager_get : bool;                        (* a non-null camera *)
  acquire : Z;
  generateConfiguration : StreamConfiguration;
  validate : StreamConfiguration -> ConfigStatus * StreamConfiguration;
  configure : Z;
  allocate : Z;
  buffers : list FrameBuffer;                (* allocator_->buffers(stream_) *)
  createRequest : Z -> bool;                 (* the k-th createRequest is non-null *)
  addBuffer : Z -> FrameBuffer -> Z
}.

Inductive InitEvent :=
| ManagerStop
| CameraRelease
| ConnectRequestCompleted
| InitCerr (message : string).

Inductive LoopResult :=
| LoopDone (requests : list Request)
| LoopFailed (requests : list Request) (message : string)
| LoopUndefined (f : Fault)
| LoopOutOfFuel.

(** Lines 92-103. The index is advanced twice per iteration: by [i++]
    in the subscript and by [++i] in the loop header. *)
Fixpoint create_requests (cam : CameraStack) (bufferCount : Z)
    (fuel : nat) (i : Z) (requests : list Request) : LoopResult :=
  match fuel with
  | O => LoopOutOfFuel
  | S fuel' =>
      if i <? bufferCount then
        let k := Z.of_nat (length requests) in
        if createRequest cam k then
          match index (buffers cam) i with
          | Undefined f => LoopUndefined f
          | Returns b =>
              let i := uint32 (i + 1) in                      (* i++ *)
              if addBuffer cam k b =? 0 then
                create_requests cam bufferCount fuel'
                  (uint32 (i + 1))                            (* ++i *)
                  (requests ++ [{| cookie := k; buffer := b |}])
              else LoopFailed requests "Failed to add buffer to request."
          end
        else LoopFailed requests "Failed to create request."
      else LoopDone requests
  end.

Record CameraInit := {
  cam_ok : bool;
  cam_this : CameraHandler;
  cam_events : list InitEvent
}.

Definition cam_fail (this : CameraHandler) (events : list InitEvent) : Outcome CameraInit :=
  Returns {| cam_ok := false; cam_this := this; cam_events := events |}.

Definition CameraHandler_init (cam : CameraStack) (fuel : nat)
    (this : CameraHandler) (width height : Z) : option (Outcome CameraInit) :=
  if negb (manager_start cam =? 0) then
    Some (cam_fail this [InitCerr "Failed to start camera manager."])
  else if bool_decide (cameras cam = []) then
    Some (cam_fail this [InitCerr "No cameras found."; ManagerStop])
  else if negb (manager_get cam) then
    Some (cam_fail this [InitCerr "Failed to get camera."; ManagerStop])
  else if negb (acquire cam =? 0) then
    Some (cam_fail this [InitCerr "Failed to acquire camera."; ManagerStop])
  else
    let requested :=
      {| pixelFormat := NV12;
         size_width := width; size_height := height;
         stride := stride (generateConfiguration cam);
         bufferCount := 1 |} in
    let '(status, config) := validate cam requested in
    match status with
    | Invalid =>
        Some (cam_fail this [InitCerr "Invalid camera configuration."; CameraRelease; ManagerStop])
    | _ =>
        if negb (configure cam =? 0) then
          Some (cam_fail this [InitCerr "Failed to configure camera."; CameraRelease; ManagerStop])
        else
          let this := {| frame_callback_ := frame_callback_ this;
                         stream_ := Some config;
                         requests_ := requests_ this |} in
          if allocate cam <? 0 then
            Some (cam_fail this [InitCerr "Failed to allocate buffers."; CameraRelease; ManagerStop])
          else
            match create_requests cam (bufferCount config) fuel 0 (requests_ this) with
            | LoopOutOfFuel => None
            | LoopUndefined f => Some (Undefined f)
            | LoopFailed requests message =>
                Some (Returns {| cam_ok := false;
                                 cam_this := {| frame_callback_ := frame_callback_ this;
                                                stream_ := stream_ this;
                                                requests_ := requests |};
                                 cam_events := [ConnectRequestCompleted; InitCerr message] |})
            | LoopDone requests =>
                Some (Returns {| cam_ok := true;
                                 cam_this := {| frame_callback_ := frame_callback_ this;
                                                stream_ := stream_ this;
                                                requests_ := requests |};
                                 cam_events := [ConnectRequestCompleted] |})
            end
    end.

(** ** CameraHandler::requestComplete *)

(** What the kernel and OpenCV answer during one completion. *)
Record Platform := {
  mmap : Z -> Z -> option (Z * list byte);   (* length, fd: the address and the bytes seen there;
                                                 None is MAP_FAILED *)
  cvtColor_NV12 : Z -> Z -> Z -> list byte -> Mat;   (* rows, cols, step, data *)
  imdecode : list byte -> Mat
}.

Inductive Event :=
| EMmap (length fd : Z) (mem : option Z)
| EMunmap (mem length : Z)
| EFrame (frame : CameraFrame)               (* frame_callback_(frame) *)
| EReuse (request : Z)                       (* request->reuse(ReuseBuffers) *)
| EQueue (request : Z)                       (* camera_->queueRequest(request) *)
| ECerr (message : string).

Inductive Exit :=
| Returned
| Propagated          (* an exception leaves the callback *)
| Crashed (f : Fault).

Record Completion := {
  trace : list Event;
  exit : Exit
}.

(** The code after the label [bailout]. *)
Definition bailout (mem : option Z) (total_buffer_length : Z) (request : Request)
  : list Event :=
  (match mem with
   | Some addr => [EMunmap addr total_buffer_length]
   | None => []
   end)
  ++ [EReuse (cookie request); EQueue (cookie request)].

(** Lines 191-198, then the fall through to [bailout]. *)
Definition pass_frame (this : CameraHandler) (bgr_image : Mat)
    (before : list Event) (mem : option Z) (total_buffer_length : Z)
    (request : Request) : Completion :=
  match frame_callback_ this with
  | Some callback =>
      let frame :=
        {| frame_data :=
             take (Z.to_nat (cols bgr_image * rows bgr_image * channels bgr_image))
                  (mat_data bgr_image);
           width := cols bgr_image;
           height := rows bgr_image |} in
      match callback frame with
      | CallReturns =>
          {| trace := before ++ [EFrame frame] ++ bailout mem total_buffer_length request;
             exit := Returned |}
      | CallThrows =>
          {| trace := before ++ [EFrame frame]; exit := Propagated |}
      end
  | None =>
      {| trace := before ++ bailout mem total_buffer_length request; exit := Returned |}
  end.

(** [status] is what [request->status()] answers. *)
Definition requestComplete (this : CameraHandler) (os : Platform)
    (status : RequestStatus) (request : Request) : Completion :=
  let total_buffer_length := 0 in
  let mem : option Z := None in                       (* MAP_FAILED *)
  if decide (status = RequestComplete) then
    match stream_ this with
    | None => {| trace := []; exit := Crashed NullDereference |}
    | Some configuration =>
        let total_buffer_length :=
          foldl (fun total plane => size_t (total + Plane.length plane))
                total_buffer_length (planes (buffer request)) in
        let fd := Plane.fd (plane0 (buffer request)) in
        match mmap os total_buffer_length fd with
        | None =>
            {| trace := [EMmap total_buffer_length fd None; ECerr "Failed to mmap buffer!"]
                        ++ bailout None total_buffer_length request;
               exit := Returned |}
        | Some (addr, bytes) =>
            let mem := Some addr in
            let mapped := [EMmap total_buffer_length fd mem] in
            match pixelFormat configuration with
            | NV12 =>
                let img_width := size_width configuration in
                let img_height := size_height configuration in
                let bgr_image :=
                  cvtColor_NV12 os (img_height + img_height `quot` 2) img_width
                                (stride configuration) bytes in
                pass_frame this bgr_image mapped mem total_buffer_length request
            | MJPEG =>
                let bgr_image := imdecode os (take (Z.to_nat total_buffer_length) bytes) in
                if Mat_empty bgr_image then
                  {| trace := mapped ++ [ECerr "Failed to decode MJPEG frame!"]
                              ++ bailout mem total_buffer_length request;
                     exit := Returned |}
                else pass_frame this bgr_image mapped mem total_buffer_length request
            | OtherFormat _ =>
                {| trace := mapped ++ [ECerr "Skipping unsupported frame."]
                            ++ bailout mem total_buffer_length request;
                   exit := Returned |}
            end
        end
    end
  else
    {| trace := [ECerr "Request failed"] ++ bailout mem total_buffer_length request;
       exit := Returned |}.

(** ** Concrete models and completions used below *)

Definition no_quantization : TfLiteQuantizationParams :=
  {| scale := Float32.zero; zero_point := 0 |}.

(** A model with a three-byte input and the given output tensor 0. *)
Definition model_with_output (output : TfLiteTensor) : Interpreter := {|
  input_tensor :=
    {| type := kTfLiteUInt8; dims := [1; 1; 1; 3];
       params := no_quantization; data := U8Data ["000"; "000"; "000"]%byte |};
  Invoke := fun _ => (kTfLiteOk, Some output)
|}.

Definition files_of (interp : Interpreter) : ModelFiles := {|
  label_file := Some ["margherita"; "marinara"; "diavola"; "capricciosa"]%string;
  BuildFromFile := true;
  builder := Some interp;
  AllocateTensors := kTfLiteOk
|}.

(** The object [main] holds after a successful [init]. *)
Definition loaded (interp : Interpreter) : ModelInterpreter :=
  init_this (ModelInterpreter_init (files_of interp) ModelInterpreter_new).

Definition rgb_pixel : list byte := ["001"; "002"; "003"]%byte.

(** Scenario A: bytes [10, 200, 0, 0], declared scale 0.5, zero-point 50. *)
Definition scenarioA_output : TfLiteTensor := {|
  type := kTfLiteUInt8;
  dims := [1; 4];
  params := {| scale := Float32.of_scaled 1 (-1); zero_point := 50 |};
  data := U8Data ["010"; "200"; "000"; "000"]%byte
|}.

Definition scenarioA_expected : list float :=
  Float32.of_int <$> [-20; 75; -25; -25].

(** A rank-1 output tensor of five bytes. *)
Definition rank1_output : TfLiteTensor := {|
  type := kTfLiteUInt8;
  dims := [5];
  params := no_quantization;
  data := U8Data ["001"; "002"; "003"; "004"; "005"]%byte
|}.

(** Scenario C: shape [1, 3, 2]. *)
Definition scenarioC_output : TfLiteTensor := {|
  type := kTfLiteUInt8;
  dims := [1; 3; 2];
  params := no_quantization;
  data := U8Data ["001"; "002"; "003"; "004"; "005"; "006"]%byte
|}.

(** An NV12 buffer of a 640 by 480 stream: luma and chroma on one descriptor. *)
Definition nv12_buffer (fd : Z) : FrameBuffer := {|
  plane0 := {| Plane.fd := fd; Plane.offset := 0; Plane.length := 307200 |};
  more_planes := [{| Plane.fd := fd; Plane.offset := 307200; Plane.length := 153600 |}]
|}.

(** A camera stack on which every call succeeds and [validate] raises
    the buffer count from the requested 1 to 4. *)
Definition four_buffer_camera : CameraStack := {|
  manager_start := 0;
  cameras := ["imx219"%string];
  manager_get := true;
  acquire := 0;
  generateConfiguration :=
    {| pixelFormat := MJPEG; size_width := 0; size_height := 0;
       stride := 640; bufferCount := 0 |};
  validate := fun requested =>
    (Adjusted,
     {| pixelFormat := pixelFormat requested;
        size_width := size_width requested; size_height := size_height requested;
        stride := stride requested; bufferCount := 4 |});
  configure := 0;
  allocate := 4;
  buffers := nv12_buffer <$> [20; 21; 22; 23];
  createRequest := fun _ => true;
  addBuffer := fun _ _ => 0
|}.

Definition requests_of (r : option (Outcome CameraInit)) : list Request :=
  match r with
  | Some (Returns c) => requests_ (cam_this c)
  | _ => []
  end.

(** The buffers that some request of the handler is bound to. *)
Definition bound_buffers (this : CameraHandler) : list FrameBuffer :=
  buffer <$> requests_ this.

Definition sample_stream (format : PixelFormat) : StreamConfiguration :=
  {| pixelFormat := format; size_width := 640; size_height := 480;
     stride := 640; bufferCount := 4 |}.

Definition sample_mat : Mat :=
  {| rows := 1; cols := 1; channels := 3; mat_data := ["007"; "008"; "009"]%byte |}.

Definition empty_mat : Mat :=
  {| rows := 0; cols := 0; channels := 1; mat_data := [] |}.

(** A platform on which the mapping succeeds at address 4096. *)
Definition mapping_platform (decoded : Mat) : Platform := {|
  mmap := fun _ _ => Some (4096, []);
  cvtColor_NV12 := fun _ _ _ _ => sample_mat;
  imdecode := fun _ => decoded
|}.

Definition failing_platform : Platform := {|
  mmap := fun _ _ => None;
  cvtColor_NV12 := fun _ _ _ _ => sample_mat;
  imdecode := fun _ => sample_mat
|}.

Definition streaming (format : PixelFormat) (callback : CameraFrame -> CallResult)
  : CameraHandler :=
  {| frame_callback_ := Some callback;
     stream_ := Some (sample_stream format);
     requests_ := [] |}.

Definition sample_request : Request := {| cookie := 0; buffer := nv12_buffer 20 |}.

(** A float output tensor of two classes. *)
Definition float_output : TfLiteTensor := {|
  type := kTfLiteFloat32;
  dims := [1; 2];
  params := no_quantization;
  data := F32Data [Float32.of_scaled 1 (-2); Float32.of_scaled 3 (-2)]
|}.

(** A signed-byte output tensor of two classes. *)
Definition int8_output : TfLiteTensor := {|
  type := kTfLiteInt8;
  dims := [1; 2];
  params := no_quantization;
  data := RawData ["127"; "128"]%byte
|}.

(** A model with a float input of three elements. *)
Definition float_input_model (output : TfLiteTensor) : Interpreter := {|
  input_tensor :=
    {| type := kTfLiteFloat32; dims := [1; 1; 1; 3];
       params := {| scale := Float32.of_scaled 1 (-7); zero_point := 128 |};
       data := F32Data [Float32.zero; Float32.zero; Float32.zero] |};
  Invoke := fun _ => (kTfLiteOk, Some output)
|}.

(** ** Observations on results and traces *)

Definition confidences (r : Outcome InferenceRun) : Outcome (list float) :=
  (fun run => confidence <$> run_detections run) <$> r.

(** The values the dequantization formula gives on the quantization
    parameters a tensor declares. *)
Definition declared_dequantization (t : TfLiteTensor) (raw : list byte) : list float :=
  (fun q => Float32.mul (scale (params t))
                        (Float32.of_int (uint8_val q - zero_point (params t)))) <$> raw.

Fixpoint every_other {A} (l : list A) : list A :=
  match l with
  | [] => []
  | x :: rest => x :: match rest with
                      | [] => []
                      | _ :: rest' => every_other rest'
                      end
  end.

Definition is_mmap (e : Event) : bool :=
  match e with EMmap _ _ _ => true | _ => false end.
Definition is_munmap (e : Event) : bool :=
  match e with EMunmap _ _ => true | _ => false end.
Definition is_frame (e : Event) : bool :=
  match e with EFrame _ => true | _ => false end.
Definition is_reuse (e : Event) : bool :=
  match e with EReuse _ => true | _ => false end.
Definition is_queue (e : Event) : bool :=
  match e with EQueue _ => true | _ => false end.

Definition count (p : Event -> bool) (t : list Event) : nat :=
  length (List.filter p t).


(** The mappings still live after a trace, starting from [live]; [None]
    when the trace unmaps a region that is not mapped at that point. *)
Fixpoint live_mappings (t : list Event) (live : list (Z * Z)) : option (list (Z * Z)) :=
  match t with
  | [] => Some live
  | EMmap len _ (Some addr) :: t' => live_mappings t' ((addr, len) :: live)
  | EMunmap addr len :: t' =>
      if bool_decide ((addr, len) ∈ live)
      then live_mappings t' (list_difference live [(addr, len)])
      else None
  | _ :: t' => live_mappings t' live
  end.

(** ** main.cpp: processFrameAndInfer *)

(** The two OpenCV calls of the consumer: [cv::resize] of the frame to
    the given width and height, and the BGR to RGB swap. *)
Record ImageOps := {
  resize : CameraFrame -> Z -> Z -> list byte;
  cvtColor_BGR2RGB : list byte -> list byte
}.

Record FrameReport := {
  report_interpreter : option ModelInterpreter;   (* the object behind the global pointer *)
  report_cerr : list string;
  report_inference : list Diagnostic;             (* what runInference wrote to cerr *)
  report_lines : list (string * float);           (* one "label: confidence" line each *)
  report_detected : option string;                (* after "Object detected: " *)
  report_shown : bool                             (* imshow was reached *)
}.

(** Lines 107-113: each iteration first prints
    [class_labels[detections[i].class_id]], then updates the maximum. *)
Fixpoint report_loop (class_labels : list string) (detections : list Detection)
    (i argmax : Z) (max_confidence : float) (lines : list (string * float))
  : Outcome (list (string * float) * Z * float) :=
  match detections with
  | [] => Returns (lines, argmax, max_confidence)
  | d :: rest =>
      label ← index class_labels (class_id d);
      let lines := lines ++ [(label, confidence d)] in
      if Float32.gt (confidence d) max_confidence
      then report_loop class_labels rest (i + 1) i (confidence d) lines
      else report_loop class_labels rest (i + 1) argmax max_confidence lines
  end.

Definition processFrameAndInfer (model_interpreter_ptr : option ModelInterpreter)
    (cv : ImageOps) (frame : CameraFrame) : Outcome FrameReport :=
  match model_interpreter_ptr with
  | None =>
      Returns {| report_interpreter := None;
                 report_cerr := ["Interpreter not initialized!"%string];
                 report_inference := [];
                 report_lines := [];
                 report_detected := None;
                 report_shown := false |}
  | Some interpreter =>
      let model_input_w := getInputWidth interpreter in
      let model_input_h := getInputHeight interpreter in
      let resized_image_bgr := resize cv frame model_input_w model_input_h in
      let resized_image_bgr := cvtColor_BGR2RGB cv resized_image_bgr in
      run ← runInference interpreter resized_image_bgr;
      let class_labels := getClassLabels (run_this run) in
      let argmax := 0 in
      let max_confidence := Float32.zero in
      '(lines, argmax, _) ←
        report_loop class_labels (run_detections run) 0 argmax max_confidence [];
      detected ← index class_labels argmax;
      Returns {| report_interpreter := Some (run_this run);
                 report_cerr := [];
                 report_inference := run_cerr run;
                 report_lines := lines;
                 report_detected := Some detected;
                 report_shown := true |}
  end.

(** ** CameraHandler::start *)

(** What the camera answers to [start] and to the [queueRequest] of a
    request. *)
Record StreamControl := {
  camera_start : Z;
  queueRequest : Z -> Z
}.

Inductive StartEvent :=
| CameraStart
| QueueRequest (request : Z)
| StartCerr (message : string).

(** Lines 120-125: the first failing [queueRequest] ends the loop. *)
Fixpoint queue_requests (control : StreamControl) (requests : list Request)
  : bool * list StartEvent :=
  match requests with
  | [] => (true, [])
  | req :: rest =>
      if negb (queueRequest control (cookie req) =? 0) then
        (false, [QueueRequest (cookie req);
                 StartCerr "[CameraHandler] Failed to queue request after camera start."])
      else
        let '(ok, events) := queue_requests control rest in
        (ok, QueueRequest (cookie req) :: events)
  end.

Definition CameraHandler_start (control : StreamControl) (this : CameraHandler)
  : bool * list StartEvent :=
  if negb (camera_start control =? 0) then
    (false, [CameraStart; StartCerr "Failed to start camera."])
  else
    let '(ok, events) := queue_requests control (requests_ this) in
    (ok, CameraStart :: events).

(** ** More observations *)

Definition queued (events : list StartEvent) : list Z :=
  omap (fun e => match e with QueueRequest r => Some r | _ => None end) events.

Definition is_release (e : InitEvent) : bool :=
  match e with CameraRelease => true | _ => false end.

Definition is_manager_stop (e : InitEvent) : bool :=
  match e with ManagerStop => true | _ => false end.

Definition is_connect (e : InitEvent) : bool :=
  match e with ConnectRequestCompleted => true | _ => false end.

(** [total_buffer_length] once the loop over the planes is done. *)
Definition mapping_length (b : FrameBuffer) : Z :=
  foldl (fun total plane => size_t (total + Plane.length plane)) 0 (planes b).

(** The frame the callback builds from a decoded image. *)
Definition frame_of (bgr_image : Mat) : CameraFrame :=
  {| frame_data :=
       take (Z.to_nat (cols bgr_image * rows bgr_image * channels bgr_image))
            (mat_data bgr_image);
     width := cols bgr_image;
     height := rows bgr_image |}.

(** A camera stack on which the first [addBuffer] fails. *)
Definition add_buffer_failing_camera : CameraStack := {|
  manager_start := manager_start four_buffer_camera;
  cameras := cameras four_buffer_camera;
  manager_get := manager_get four_buffer_camera;
  acquire := acquire four_buffer_camera;
  generateConfiguration := generateConfiguration four_buffer_camera;
  validate := validate four_buffer_camera;
  configure := configure four_buffer_camera;
  allocate := allocate four_buffer_camera;
  buffers := buffers four_buffer_camera;
  createRequest := createRequest four_buffer_camera;
  addBuffer := fun k _ => if k =? 1 then -22 else 0
|}.

(** A float output tensor of two classes, both confidences negative. *)
Definition negative_output : TfLiteTensor := {|
  type := kTfLiteFloat32;
  dims := [1; 2];
  params := no_quantization;
  data := F32Data [Float32.of_int (-20); Float32.of_int (-5)]
|}.

(** A model whose input tensor has rank 3: [init] rejects it. *)
Definition rank3_input_model : Interpreter := {|
  input_tensor :=
    {| type := kTfLiteUInt8; dims := [1; 1; 3];
       params := no_quantization; data := U8Data ["000"; "000"; "000"]%byte |};
  Invoke := fun _ => (kTfLiteOk, Some scenarioA_output)
|}.

(** A model of a 2 by 1 input with four channels. *)
Definition rgba_input_model : Interpreter := {|
  input_tensor :=
    {| type := kTfLiteUInt8; dims := [1; 1; 2; 4];
       params := no_quantization;
       data := U8Data (replicate 8 "000"%byte) |};
  Invoke := fun _ => (kTfLiteOk, Some scenarioA_output)
|}.

Definition sample_control : StreamControl :=
  {| camera_start := 0; queueRequest := fun _ => 0 |}.

(** OpenCV answering with an image of the requested size, three bytes
    per pixel. *)
Definition sample_cv : ImageOps := {|
  resize := fun _ w h => replicate (Z.to_nat (w * h * 3)) "128"%byte;
  cvtColor_BGR2RGB := fun image => image
|}.

Definition sample_frame : CameraFrame :=
  {| frame_data := ["007"; "008"; "009"]%byte; width := 1; height := 1 |}.

(** * Properties *)

(** ** Indexing and machine integers *)

Lemma index_lookup {A} (v : list A) (i : nat) (x : A) :
  v !! i = Some x -> index v (Z.of_nat i) = Returns x.
Proof.
  intros Hi. unfold index.
  destruct (Z.ltb_spec (Z.of_nat i) 0) as [Hneg|_]; [lia|].
  by rewrite Nat2Z.id, Hi.
Qed.

Lemma index_middle {A} (pre post : list A) (x : A) :
  index (pre ++ x :: post) (Z.of_nat (length pre)) = Returns x.
Proof. apply index_lookup. by rewrite list_lookup_middle. Qed.

Lemma index_beyond {A} (v : list A) (i : Z) :
  Z.of_nat (length v) <= i -> index v i = Undefined (OutOfBounds i).
Proof.
  intros Hi. unfold index.
  destruct (Z.ltb_spec i 0); [done|].
  rewrite lookup_ge_None_2; [done|lia].
Qed.

Lemma uint8_val_range (b : byte) : 0 <= uint8_val b <= 255.
Proof.
  unfold uint8_val. pose proof (Byte.to_N_bounded b). lia.
Qed.

Lemma int_op_fits (z : Z) : INT_MIN <= z <= INT_MAX -> int_op z = Returns z.
Proof.
  intros [Hlo Hhi]. unfold int_op, in_int.
  destruct (Z.leb_spec INT_MIN z); [|lia].
  destruct (Z.leb_spec z INT_MAX); [done|lia].
Qed.

(** A byte converts to binary32 without rounding. *)
Lemma widening_exact (b : byte) :
  Float32.to_int_exact (Float32.of_int (uint8_val b)) = Some (uint8_val b).
Proof. destruct b; vm_compute; reflexivity. Qed.

(** With the scale left at its initializer, every byte dequantizes to +0. *)
Lemma zero_scale_dequantizes_to_zero (b : byte) :
  Float32.mul Float32.zero (Float32.of_int (uint8_val b - 0)) = Float32.zero.
Proof. destruct b; vm_compute; reflexivity. Qed.

(** ** ModelInterpreter::init *)

Lemma init_keeps_output_quantization (files : ModelFiles) (this : ModelInterpreter) :
  model_output_scale_ (init_this (ModelInterpreter_init files this)) = model_output_scale_ this
  /\ model_output_zero_ (init_this (ModelInterpreter_init files this)) = model_output_zero_ this.
Proof.
  unfold ModelInterpreter_init.
  repeat case_match; simpl; done.
Qed.

Lemma init_output_quantization (files : ModelFiles) :
  let this := init_this (ModelInterpreter_init files ModelInterpreter_new) in
  model_output_scale_ this = Float32.zero /\ model_output_zero_ this = 0.
Proof. apply (init_keeps_output_quantization files ModelInterpreter_new). Qed.

(** ** The output loops *)

Lemma uint8_loop_spec (this : ModelInterpreter) (post pre : list byte)
    (detections : list Detection) :
  255 - INT_MAX <= model_output_zero_ this <= INT_MAX ->
  uint8_loop this (pre ++ post) (length post) (Z.of_nat (length pre)) detections
  = Returns (detections ++
      imap (fun k q =>
              {| class_id := Z.of_nat (length pre + k);
                 confidence :=
                   Float32.mul (model_output_scale_ this)
                     (Float32.of_int (uint8_val q - model_output_zero_ this)) |}) post).
Proof.
  intros Hzero. revert pre detections.
  induction post as [|q post IH]; intros pre detections; simpl.
  - by rewrite app_nil_r.
  - rewrite index_middle. simpl.
    rewrite int_op_fits; [simpl|].
    2:{ pose proof (uint8_val_range q). unfold INT_MIN, INT_MAX in *. lia. }
    replace (pre ++ q :: post) with ((pre ++ [q]) ++ post) by (by rewrite <- app_assoc).
    replace (Z.of_nat (length pre) + 1) with (Z.of_nat (length (pre ++ [q])))
      by (rewrite length_app; simpl; lia).
    rewrite IH, <- app_assoc. simpl.
    rewrite Nat.add_0_r.
    do 3 f_equal.
    apply imap_ext. intros k x _. simpl.
    rewrite length_app. simpl. do 2 f_equal. lia.
Qed.

Lemma float_loop_spec (post pre : list float) (detections : list Detection) :
  float_loop (pre ++ post) (length post) (Z.of_nat (length pre)) detections
  = Returns (detections ++
      imap (fun k f => {| class_id := Z.of_nat (length pre + k); confidence := f |}) post).
Proof.
  revert pre detections.
  induction post as [|f post IH]; intros pre detections; simpl.
  - by rewrite app_nil_r.
  - rewrite index_middle. simpl.
    replace (pre ++ f :: post) with ((pre ++ [f]) ++ post) by (by rewrite <- app_assoc).
    replace (Z.of_nat (length pre) + 1) with (Z.of_nat (length (pre ++ [f])))
      by (rewrite length_app; simpl; lia).
    rewrite IH, <- app_assoc. simpl.
    rewrite Nat.add_0_r.
    do 3 f_equal.
    apply imap_ext. intros k x _. simpl.
    rewrite length_app. simpl. do 2 f_equal. lia.
Qed.

Lemma imap_class_ids {A} (g : A -> float) (l : list A) (start : nat) :
  class_id <$> imap (fun k x => {| class_id := Z.of_nat (start + k); confidence := g x |}) l
  = Z.of_nat <$> seq start (length l).
Proof.
  revert start. induction l as [|x l IH]; intros start; simpl; [done|].
  rewrite Nat.add_0_r. f_equal.
  rewrite <- IH. f_equal. apply imap_ext. intros k y _. simpl. do 2 f_equal. lia.
Qed.

(** ** ModelInterpreter::runInference: output handling *)

(** Once the image is marshalled and [Invoke] succeeded, the call is
    the post-processing of output tensor 0. *)
Lemma runInference_postprocess (this : ModelInterpreter) (interp : Interpreter)
    (image_data : list byte) (input : TensorData) (output : option TfLiteTensor) :
  interpreter_ this = Some interp ->
  marshal_input this image_data = Returns (Some input) ->
  Invoke interp input = (kTfLiteOk, output) ->
  runInference this image_data = postprocess this input output.
Proof.
  intros Hinterp Hmarshal Hinvoke. unfold runInference.
  rewrite Hmarshal. simpl. rewrite Hinterp. simpl. rewrite Hinvoke.
  by destruct (decide (kTfLiteOk ≠ kTfLiteOk)).
Qed.

Lemma typed_uint8_wf (t : TfLiteTensor) :
  tensor_wf t -> type t = kTfLiteUInt8 ->
  exists raw, typed_uint8 t = Some raw /\ Z.of_nat (length raw) = elements (dims t).
Proof.
  unfold tensor_wf, typed_uint8. intros Hwf Htype. rewrite Htype in *.
  destruct (data t); try done. eauto.
Qed.

Lemma typed_float_wf (t : TfLiteTensor) :
  tensor_wf t -> type t = kTfLiteFloat32 ->
  exists raw, typed_float t = Some raw /\ Z.of_nat (length raw) = elements (dims t).
Proof.
  unfold tensor_wf, typed_float. intros Hwf Htype. rewrite Htype in *.
  destruct (data t); try done. eauto.
Qed.

(** The byte branch of the post-processing, on an arbitrary object. *)
Lemma postprocess_uint8 (this : ModelInterpreter) (input : TensorData)
    (output : TfLiteTensor) (n : Z) (raw : list byte) :
  dims output = [1; n] ->
  type output = kTfLiteUInt8 ->
  typed_uint8 output = Some raw ->
  Z.of_nat (length raw) = n ->
  255 - INT_MAX <= model_output_zero_ this <= INT_MAX ->
  postprocess this input (Some output)
  = Returns {| run_this := set_output_type this kTfLiteUInt8;
               run_input := Some input;
               run_cerr := [];
               run_detections :=
                 imap (fun k q =>
                         {| class_id := Z.of_nat k;
                            confidence :=
                              Float32.mul (model_output_scale_ this)
                                (Float32.of_int (uint8_val q - model_output_zero_ this)) |})
                      raw |}.
Proof.
  intros Hdims Htype Htyped Hlen Hzero. unfold postprocess.
  rewrite Hdims, Htype, Htyped. simpl.
  rewrite <- Hlen, Nat2Z.id.
  pose proof (uint8_loop_spec (set_output_type this kTfLiteUInt8) raw [] [] Hzero) as Hloop.
  simpl in Hloop. change (Z.of_nat 0) with 0 in Hloop. rewrite Hloop. reflexivity.
Qed.

Lemma postprocess_float (this : ModelInterpreter) (input : TensorData)
    (output : TfLiteTensor) (n : Z) (raw : list float) :
  dims output = [1; n] ->
  type output = kTfLiteFloat32 ->
  typed_float output = Some raw ->
  Z.of_nat (length raw) = n ->
  postprocess this input (Some output)
  = Returns {| run_this := set_output_type this kTfLiteFloat32;
               run_input := Some input;
               run_cerr := [];
               run_detections :=
                 imap (fun k f => {| class_id := Z.of_nat k; confidence := f |}) raw |}.
Proof.
  intros Hdims Htype Htyped Hlen. unfold postprocess.
  rewrite Hdims, Htype, Htyped. simpl.
  rewrite <- Hlen, Nat2Z.id.
  pose proof (float_loop_spec raw [] []) as Hloop.
  simpl in Hloop. change (Z.of_nat 0) with 0 in Hloop. rewrite Hloop. reflexivity.
Qed.

(** C8: for a byte or float output tensor of shape [1, n], runInference
    returns exactly n Detections, their class_ids are 0, 1, ..., n-1 in
    that order, and for a float tensor the Detection of class k carries
    the raw float at index k. *)
Theorem C8_one_detection_per_class (this : ModelInterpreter) (interp : Interpreter)
    (image_data : list byte) (input : TensorData) (output : TfLiteTensor) (n : Z) :
  interpreter_ this = Some interp ->
  marshal_input this image_data = Returns (Some input) ->
  Invoke interp input = (kTfLiteOk, Some output) ->
  dims output = [1; n] ->
  tensor_wf output ->
  type output = kTfLiteUInt8 \/ type output = kTfLiteFloat32 ->
  255 - INT_MAX <= model_output_zero_ this <= INT_MAX ->
  exists r,
    runInference this image_data = Returns r
    /\ Z.of_nat (length (run_detections r)) = n
    /\ class_id <$> run_detections r = Z.of_nat <$> seq 0 (Z.to_nat n)
    /\ (forall raw, typed_float output = Some raw ->
          run_detections r
          = imap (fun k f => {| class_id := Z.of_nat k; confidence := f |}) raw).
Proof.
  intros Hinterp Hmarshal Hinvoke Hdims Hwf Htype Hzero.
  rewrite (runInference_postprocess _ _ _ _ _ Hinterp Hmarshal Hinvoke).
  destruct Htype as [Htype|Htype].
  - destruct (typed_uint8_wf _ Hwf Htype) as (raw & Htyped & Hlen).
    rewrite Hdims in Hlen. simpl in Hlen.
    assert (Z.of_nat (length raw) = n) as Hn by lia.
    rewrite (postprocess_uint8 _ _ _ _ _ Hdims Htype Htyped Hn Hzero).
    eexists. split; [reflexivity|]. simpl. split; [|split].
    + by rewrite length_imap.
    + rewrite <- Hn, Nat2Z.id.
      apply (imap_class_ids
               (fun q => Float32.mul (model_output_scale_ this)
                           (Float32.of_int (uint8_val q - model_output_zero_ this))) raw 0).
    + intros raw' Hfloat. unfold typed_float in Hfloat. by rewrite Htype in Hfloat.
  - destruct (typed_float_wf _ Hwf Htype) as (raw & Htyped & Hlen).
    rewrite Hdims in Hlen. simpl in Hlen.
    assert (Z.of_nat (length raw) = n) as Hn by lia.
    rewrite (postprocess_float _ _ _ _ _ Hdims Htype Htyped Hn).
    eexists. split; [reflexivity|]. simpl. split; [|split].
    + by rewrite length_imap.
    + rewrite <- Hn, Nat2Z.id. apply (imap_class_ids id raw 0).
    + intros raw' Hfloat. by simplify_eq.
Qed.

(** C9: an output tensor of shape [1, n] whose element type is neither
    uint8 nor float32 gives an empty Detection list and nothing on the
    error stream. *)
Theorem C9_other_output_type_is_silent (this : ModelInterpreter) (interp : Interpreter)
    (image_data : list byte) (input : TensorData) (output : TfLiteTensor) (n : Z) :
  interpreter_ this = Some interp ->
  marshal_input this image_data = Returns (Some input) ->
  Invoke interp input = (kTfLiteOk, Some output) ->
  dims output = [1; n] ->
  type output <> kTfLiteUInt8 ->
  type output <> kTfLiteFloat32 ->
  runInference this image_data
  = Returns {| run_this := set_output_type this (type output);
               run_input := Some input;
               run_cerr := [];
               run_detections := [] |}.
Proof.
  intros Hinterp Hmarshal Hinvoke Hdims Hu8 Hf32.
  rewrite (runInference_postprocess _ _ _ _ _ Hinterp Hmarshal Hinvoke).
  unfold postprocess. rewrite Hdims. simpl.
  destruct (type output); done.
Qed.

Lemma C8_one_detection_per_class_witness :
  exists r,
    runInference (loaded (model_with_output float_output)) rgb_pixel = Returns r
    /\ Z.of_nat (length (run_detections r)) = 2
    /\ class_id <$> run_detections r = Z.of_nat <$> seq 0 (Z.to_nat 2)
    /\ (forall raw, typed_float float_output = Some raw ->
          run_detections r
          = imap (fun k f => {| class_id := Z.of_nat k; confidence := f |}) raw).
Proof.
  apply (C8_one_detection_per_class
           (loaded (model_with_output float_output))
           (model_with_output float_output)
           rgb_pixel (U8Data rgb_pixel) float_output 2).
  - reflexivity.
  - reflexivity.
  - reflexivity.
  - reflexivity.
  - vm_compute. reflexivity.
  - right. reflexivity.
  - vm_compute. split; discriminate.
Defined.

Lemma C9_other_output_type_is_silent_witness :
  runInference (loaded (model_with_output int8_output)) rgb_pixel
  = Returns {| run_this :=
                 set_output_type (loaded (model_with_output int8_output)) kTfLiteInt8;
               run_input := Some (U8Data rgb_pixel);
               run_cerr := [];
               run_detections := [] |}.
Proof.
  apply (C9_other_output_type_is_silent
           (loaded (model_with_output int8_output))
           (model_with_output int8_output)
           rgb_pixel (U8Data rgb_pixel) int8_output 2).
  - reflexivity.
  - reflexivity.
  - reflexivity.
  - reflexivity.
  - simpl. discriminate.
  - simpl. discriminate.
Defined.

(** ** ModelInterpreter::runInference: shape validation *)

(** The part of the shape check that holds: a shape of rank two or
    more that is not [1, n] is rejected with an empty list. *)
Lemma postprocess_rejects_shape (this : ModelInterpreter) (input : TensorData)
    (output : TfLiteTensor) (d0 d1 : Z) (more : list Z) :
  dims output = d0 :: d1 :: more ->
  more <> [] \/ d0 <> 1 ->
  postprocess this input (Some output)
  = Returns {| run_this := set_output_type this (type output);
               run_input := Some input;
               run_cerr := [UnexpectedOutputShape];
               run_detections := [] |}.
Proof.
  intros Hdims Hbad. unfold postprocess. rewrite Hdims. simpl.
  destruct Hbad as [Hmore|Hd0].
  - destruct more as [|d2 more]; [done|]. simpl.
    rewrite bool_decide_eq_true_2; [done|]. simpl. lia.
  - rewrite (bool_decide_eq_true_2 (Some d0 ≠ Some 1)) by congruence.
    by rewrite orb_true_r.
Qed.

(** The class count is read from [dims->data[1]] before the rank is
    looked at: for a tensor of rank below two the read is past the end
    of the dimension array. *)
Lemma postprocess_reads_past_dims (this : ModelInterpreter) (input : TensorData)
    (output : TfLiteTensor) :
  (length (dims output) <= 1)%nat ->
  postprocess this input (Some output) = Undefined (OutOfBounds 1).
Proof.
  intros Hrank. unfold postprocess.
  rewrite index_beyond; [done|lia].
Qed.

(** Scenario C of the specification. *)
Lemma scenarioC_empty :
  run_detections <$> runInference (loaded (model_with_output scenarioC_output)) rgb_pixel
  = Returns [].
Proof. reflexivity. Qed.

(** C5 fails on the code for a rank-1 output tensor: the shape [5] has
    one dimension, yet runInference reads position 1 of the dimension
    array (the class count) before it validates the rank, so the call
    is a read past the end of the array and not an empty list. *)
Theorem C5_rank1_output_read_past_dims :
  length (dims rank1_output) = 1%nat
  /\ tensor_wf rank1_output
  /\ runInference (loaded (model_with_output rank1_output)) rgb_pixel
     = Undefined (OutOfBounds 1)
  /\ run_detections <$> runInference (loaded (model_with_output rank1_output)) rgb_pixel
     <> Returns [].
Proof.
  split; [reflexivity|]. split; [vm_compute; reflexivity|].
  split; [reflexivity|]. discriminate.
Qed.

(** ** ModelInterpreter::runInference: dequantization *)

(** The formula of the byte loop, on the members it reads. *)
Lemma dequantization_formula (this : ModelInterpreter) (input : TensorData)
    (output : TfLiteTensor) (n : Z) (raw : list byte) (k : nat) (q : byte) :
  dims output = [1; n] ->
  type output = kTfLiteUInt8 ->
  typed_uint8 output = Some raw ->
  Z.of_nat (length raw) = n ->
  255 - INT_MAX <= model_output_zero_ this <= INT_MAX ->
  raw !! k = Some q ->
  exists r,
    postprocess this input (Some output) = Returns r
    /\ run_detections r !! k
       = Some {| class_id := Z.of_nat k;
                 confidence :=
                   Float32.mul (model_output_scale_ this)
                     (Float32.of_int (uint8_val q - model_output_zero_ this)) |}.
Proof.
  intros Hdims Htype Htyped Hlen Hzero Hk.
  rewrite (postprocess_uint8 _ _ _ _ _ Hdims Htype Htyped Hlen Hzero).
  eexists. split; [reflexivity|]. simpl.
  by rewrite list_lookup_imap, Hk.
Qed.

(** With the two members left at zero every Detection of the byte loop
    has confidence +0. *)
Lemma uint8_loop_zero_scale (this : ModelInterpreter) (raw : list byte)
    (trips : nat) (i : Z) (acc detections : list Detection) :
  model_output_scale_ this = Float32.zero ->
  model_output_zero_ this = 0 ->
  Forall (fun d => confidence d = Float32.zero) acc ->
  uint8_loop this raw trips i acc = Returns detections ->
  Forall (fun d => confidence d = Float32.zero) detections.
Proof.
  intros Hscale Hzero. revert i acc.
  induction trips as [|trips IH]; intros i acc Hacc Hrun; simpl in Hrun.
  - by simplify_eq.
  - destruct (index raw i) as [q|]; simpl in Hrun; [|done].
    destruct (int_op (uint8_val q - model_output_zero_ this)) as [d|] eqn:Hd;
      simpl in Hrun; [|done].
    apply (IH _ _) in Hrun; [done|].
    apply Forall_app. split; [done|].
    apply Forall_singleton. simpl.
    unfold int_op in Hd. destruct (in_int _); [|done]. simplify_eq.
    rewrite Hscale, Hzero. apply zero_scale_dequantizes_to_zero.
Qed.

Lemma postprocess_zero_scale (this : ModelInterpreter) (input : TensorData)
    (output : option TfLiteTensor) (r : InferenceRun) :
  model_output_scale_ this = Float32.zero ->
  model_output_zero_ this = 0 ->
  postprocess this input output = Returns r ->
  model_output_type_ (run_this r) = kTfLiteUInt8 ->
  Forall (fun d => confidence d = Float32.zero) (run_detections r).
Proof.
  intros Hscale Hzero Hrun Htype. unfold postprocess in Hrun.
  destruct output as [output|]; [|by simplify_eq].
  destruct (index (dims output) 1) as [n|]; simpl in Hrun; [|done].
  destruct (_ || _); [by simplify_eq|].
  destruct (type output) eqn:Hty; simpl in Hrun;
    try (by simplify_eq; simpl in Htype).
  - (* float32: not the byte branch *)
    destruct (match typed_float output with Some _ => _ | None => _ end);
      simpl in Hrun; [|done].
    by simplify_eq; simpl in Htype.
  - (* uint8 *)
    destruct (typed_uint8 output) as [raw|].
    + destruct (uint8_loop _ raw _ 0 []) as [dets|] eqn:Hloop; simpl in Hrun; [|done].
      simplify_eq. simpl.
      by apply (uint8_loop_zero_scale (set_output_type this kTfLiteUInt8)
                  _ _ _ _ _ Hscale Hzero (Forall_nil_2 _) Hloop).
    + destruct (0 <? n); simpl in Hrun; by simplify_eq.
Qed.

(** Whatever the model declares, the object that [init] leaves gives
    confidence +0 to every class of a byte output tensor. *)
Lemma byte_confidences_after_init (files : ModelFiles) (image_data : list byte)
    (r : InferenceRun) :
  runInference (init_this (ModelInterpreter_init files ModelInterpreter_new)) image_data
  = Returns r ->
  model_output_type_ (run_this r) = kTfLiteUInt8 ->
  Forall (fun d => confidence d = Float32.zero) (run_detections r).
Proof.
  destruct (init_output_quantization files) as [Hscale Hzero].
  set (this := init_this (ModelInterpreter_init files ModelInterpreter_new)) in *.
  clearbody this.
  intros Hrun Htype. unfold runInference in Hrun.
  destruct (marshal_input this image_data) as [[input|]|]; simpl in Hrun;
    [| by simplify_eq | done].
  destruct (interpreter_ this) as [interp|]; simpl in Hrun; [|done].
  destruct (Invoke interp input) as [status output].
  destruct (decide (status ≠ kTfLiteOk)); [by simplify_eq|].
  by apply (postprocess_zero_scale this input output).
Qed.

(** C1 fails on the code for scenario A: the model declares scale 0.5
    and zero-point 50 for its byte output [10, 200, 0, 0], for which the
    formula gives [-20, 75, -25, -25]; the object that init leaves still
    has scale 0 and zero-point 0 (init never reads the declared
    parameters), and runInference returns the confidences [0, 0, 0, 0]. *)
Theorem C1_declared_quantization_not_loaded :
  declared_dequantization scenarioA_output ["010"; "200"; "000"; "000"]%byte
  = scenarioA_expected
  /\ model_output_scale_ (loaded (model_with_output scenarioA_output)) = Float32.zero
  /\ model_output_zero_ (loaded (model_with_output scenarioA_output)) = 0
  /\ confidences (runInference (loaded (model_with_output scenarioA_output)) rgb_pixel)
     = Returns [Float32.zero; Float32.zero; Float32.zero; Float32.zero]
  /\ confidences (runInference (loaded (model_with_output scenarioA_output)) rgb_pixel)
     <> Returns scenarioA_expected.
Proof.
  split; [vm_compute; reflexivity|].
  split; [reflexivity|]. split; [reflexivity|].
  split; [vm_compute; reflexivity|].
  vm_compute. discriminate.
Qed.

(** ** ModelInterpreter::runInference: input marshaling *)

Lemma widen_loop_spec (src_post src_pre extra : list byte)
    (dst_mid dst_pre dst_post : list float) :
  length dst_pre = length src_pre ->
  length dst_mid = length src_post ->
  widen_loop (length src_post) (Z.of_nat (length src_pre))
             (src_pre ++ src_post ++ extra) (dst_pre ++ dst_mid ++ dst_post)
  = Returns (dst_pre ++ ((fun b => Float32.of_int (uint8_val b)) <$> src_post) ++ dst_post).
Proof.
  revert src_pre dst_mid dst_pre.
  induction src_post as [|b src_post IH]; intros src_pre dst_mid dst_pre Hpre Hmid.
  - destruct dst_mid; [done|discriminate].
  - destruct dst_mid as [|d dst_mid]; [discriminate|].
    simpl in Hmid. injection Hmid as Hmid.
    cbn [widen_loop length app].
    rewrite index_middle. simpl.
    destruct (Z.leb_spec (Z.of_nat (length (dst_pre ++ d :: dst_mid ++ dst_post)))
                         (Z.of_nat (length src_pre))) as [Hle|_].
    { rewrite length_app in Hle. simpl in Hle. lia. }
    rewrite Nat2Z.id, <- Hpre.
    rewrite insert_app_r_alt by lia.
    rewrite Nat.sub_diag. simpl.
    replace (src_pre ++ b :: src_post ++ extra)
      with ((src_pre ++ [b]) ++ src_post ++ extra) by (by rewrite <- app_assoc).
    replace (dst_pre ++ Float32.of_int (uint8_val b) :: dst_mid ++ dst_post)
      with ((dst_pre ++ [Float32.of_int (uint8_val b)]) ++ dst_mid ++ dst_post)
      by (by rewrite <- app_assoc).
    replace (Z.of_nat (length dst_pre) + 1) with (Z.of_nat (length (src_pre ++ [b])))
      by (rewrite length_app; simpl; lia).
    rewrite IH; [by rewrite <- app_assoc | by rewrite !length_app, Hpre | done].
Qed.

Lemma postprocess_input (this : ModelInterpreter) (input : TensorData)
    (output : option TfLiteTensor) (r : InferenceRun) :
  postprocess this input output = Returns r -> run_input r = Some input.
Proof.
  unfold postprocess. intros Hrun.
  destruct output as [output|]; [|by simplify_eq].
  destruct (index (dims output) 1) as [n|]; simpl in Hrun; [|done].
  destruct (_ || _); [by simplify_eq|].
  simpl in Hrun.
  destruct (type output); simpl in Hrun; try (by simplify_eq).
  - destruct (match typed_float output with Some _ => _ | None => _ end);
      simpl in Hrun; [|done].
    by simplify_eq.
  - destruct (match typed_uint8 output with Some _ => _ | None => _ end);
      simpl in Hrun; [|done].
    by simplify_eq.
Qed.

(** The input handed to [Invoke] is the marshalled one. *)
Lemma runInference_input (this : ModelInterpreter) (interp : Interpreter)
    (image_data : list byte) (input : TensorData) (r : InferenceRun) :
  interpreter_ this = Some interp ->
  marshal_input this image_data = Returns (Some input) ->
  runInference this image_data = Returns r ->
  run_input r = Some input.
Proof.
  intros Hinterp Hmarshal. unfold runInference.
  rewrite Hmarshal. simpl. rewrite Hinterp. simpl.
  destruct (Invoke interp input) as [status output].
  destruct (decide (status ≠ kTfLiteOk)); [intros; by simplify_eq|].
  apply postprocess_input.
Qed.

(** C7: with n = width * height * channels image bytes available, a
    byte input tensor receives the first n image bytes unchanged, and a
    float input tensor receives at each index i < n the float whose
    value is exactly image byte i; neither path reads the input scale or
    zero-point, and this is the input runInference hands to the model. *)
Theorem C7_input_marshaling (this : ModelInterpreter) (interp : Interpreter)
    (image_data : list byte) (n : nat) :
  interpreter_ this = Some interp ->
  input_count this = Returns (Z.of_nat n) ->
  (n <= length image_data)%nat ->
  (forall old,
      model_input_type_ this = kTfLiteUInt8 ->
      typed_uint8 (input_tensor interp) = Some old ->
      (n <= length old)%nat ->
      exists written,
        marshal_input this image_data = Returns (Some (U8Data written))
        /\ take n written = take n image_data
        /\ drop n written = drop n old
        /\ (forall r, runInference this image_data = Returns r ->
              run_input r = Some (U8Data written)))
  /\ (forall old,
        model_input_type_ this = kTfLiteFloat32 ->
        typed_float (input_tensor interp) = Some old ->
        (n <= length old)%nat ->
        exists written,
          marshal_input this image_data = Returns (Some (F32Data written))
          /\ (forall i b, (i < n)%nat -> image_data !! i = Some b ->
                written !! i = Some (Float32.of_int (uint8_val b))
                /\ Float32.to_int_exact (Float32.of_int (uint8_val b)) = Some (uint8_val b))
          /\ drop n written = drop n old
          /\ (forall r, runInference this image_data = Returns r ->
                run_input r = Some (F32Data written))).
Proof.
  intros Hinterp Hcount Himage. split.
  - intros old Htype Htyped Hold.
    exists (take n image_data ++ drop n old).
    assert (marshal_input this image_data
            = Returns (Some (U8Data (take n image_data ++ drop n old)))) as Hmarshal.
    { unfold marshal_input. rewrite Htype, Hinterp. simpl.
      rewrite Htyped. simpl. rewrite Hcount. simpl.
      unfold memcpy.
      destruct (Z.ltb_spec (Z.of_nat n) 0); [lia|].
      destruct (Z.ltb_spec (Z.of_nat (length image_data)) (Z.of_nat n)); [lia|].
      destruct (Z.ltb_spec (Z.of_nat (length old)) (Z.of_nat n)); [lia|].
      simpl. by rewrite Nat2Z.id. }
    split; [done|].
    assert (length (take n image_data) = n) as Hlen by (rewrite length_take; lia).
    split; [|split].
    + by rewrite take_app_length'.
    + by rewrite drop_app_length'.
    + intros r Hrun. by apply (runInference_input this interp image_data).
  - intros old Htype Htyped Hold.
    exists (((fun b => Float32.of_int (uint8_val b)) <$> take n image_data) ++ drop n old).
    assert (marshal_input this image_data
            = Returns (Some (F32Data
                (((fun b => Float32.of_int (uint8_val b)) <$> take n image_data)
                 ++ drop n old)))) as Hmarshal.
    { unfold marshal_input. rewrite Htype, Hinterp. simpl.
      rewrite Hcount. simpl. rewrite Htyped.
      rewrite Nat2Z.id.
      pose proof (widen_loop_spec (take n image_data) [] (drop n image_data)
                    (take n old) [] (drop n old)) as Hloop.
      rewrite !length_take in Hloop. simpl in Hloop.
      rewrite !take_drop in Hloop.
      replace (n `min` length image_data)%nat with n in Hloop by lia.
      change (Z.of_nat 0) with 0 in Hloop.
      rewrite Hloop; [done|done|lia]. }
    split; [done|]. split; [|split].
    + intros i b Hi Hb. split; [|apply widening_exact].
      rewrite lookup_app_l by (rewrite length_fmap, length_take; lia).
      by rewrite list_lookup_fmap, lookup_take_lt, Hb by done.
    + rewrite drop_app_length'; [done|]. rewrite length_fmap, length_take. lia.
    + intros r Hrun. by apply (runInference_input this interp image_data).
Qed.

Lemma C7_input_marshaling_witness :
  (exists written,
     marshal_input (loaded (model_with_output float_output)) rgb_pixel
     = Returns (Some (U8Data written))
     /\ take 3 written = take 3 rgb_pixel
     /\ drop 3 written = drop 3 ["000"; "000"; "000"]%byte
     /\ (forall r,
           runInference (loaded (model_with_output float_output)) rgb_pixel = Returns r ->
           run_input r = Some (U8Data written)))
  /\ (exists written,
        marshal_input (loaded (float_input_model float_output)) rgb_pixel
        = Returns (Some (F32Data written))
        /\ (forall i b, (i < 3)%nat -> rgb_pixel !! i = Some b ->
              written !! i = Some (Float32.of_int (uint8_val b))
              /\ Float32.to_int_exact (Float32.of_int (uint8_val b)) = Some (uint8_val b))
        /\ drop 3 written = drop 3 [Float32.zero; Float32.zero; Float32.zero]
        /\ (forall r,
              runInference (loaded (float_input_model float_output)) rgb_pixel = Returns r ->
              run_input r = Some (F32Data written))).
Proof.
  split.
  - apply (proj1 (C7_input_marshaling
                    (loaded (model_with_output float_output))
                    (model_with_output float_output) rgb_pixel 3
                    eq_refl eq_refl (le_n 3))
                 ["000"; "000"; "000"]%byte eq_refl eq_refl (le_n 3)).
  - apply (proj2 (C7_input_marshaling
                    (loaded (float_input_model float_output))
                    (float_input_model float_output) rgb_pixel 3
                    eq_refl eq_refl (le_n 3))
                 [Float32.zero; Float32.zero; Float32.zero] eq_refl eq_refl (le_n 3)).
Defined.

(** ** main.cpp: the best detection *)

Lemma select_loop_nothing_positive (detections : list Detection) (i argmax : Z) :
  Forall (fun d => Float32.gt (confidence d) Float32.zero = false) detections ->
  select_loop detections i argmax Float32.zero = (argmax, Float32.zero).
Proof.
  intros Hall. revert i.
  induction Hall as [|d rest Hd _ IH]; intros i; simpl; [done|].
  rewrite Hd. apply IH.
Qed.

(** ** CameraHandler::init: the request loop *)

Lemma every_other_cons {A} (x : A) (l : list A) :
  every_other (x :: l) = x :: every_other (drop 1 l).
Proof. by destruct l. Qed.

Lemma every_other_length {A} (l : list A) :
  length (every_other l) = Nat.div2 (S (length l)).
Proof.
  assert (forall l : list A,
             length (every_other l) = Nat.div2 (S (length l))
             /\ forall x, length (every_other (x :: l)) = Nat.div2 (S (S (length l))))
    as Hboth.
  { clear l. induction l as [|y l [IH1 IH2]]; [by split|].
    split; [apply IH2|]. intros x.
    change (every_other (x :: y :: l)) with (x :: every_other l).
    simpl length at 1. by rewrite IH1. }
  apply Hboth.
Qed.

Section RequestLoop.

Variable cam : CameraStack.
Hypothesis create_ok : forall k, createRequest cam k = true.
Hypothesis add_ok : forall k b, addBuffer cam k b = 0.
Hypothesis count_fits : Z.of_nat (length (buffers cam)) + 1 < 2 ^ 32.

(** With every call succeeding, the loop started at index [i] binds
    the buffers at [i], [i + 2], [i + 4], ... and no other. *)
Lemma create_requests_every_other (fuel : nat) (i : nat) (requests : list Request) :
  (length (drop i (buffers cam)) < fuel)%nat ->
  create_requests cam (Z.of_nat (length (buffers cam))) fuel (Z.of_nat i) requests
  = LoopDone
      (requests ++
       imap (fun j b => {| cookie := Z.of_nat (length requests + j); buffer := b |})
            (every_other (drop i (buffers cam)))).
Proof.
  revert i requests.
  induction fuel as [|fuel IH]; intros i requests Hfuel; [lia|].
  cbn [create_requests].
  destruct (Z.ltb_spec (Z.of_nat i) (Z.of_nat (length (buffers cam)))) as [Hlt|Hge].
  - rewrite create_ok.
    destruct (lookup_lt_is_Some_2 (buffers cam) i) as [b Hb]; [lia|].
    rewrite (index_lookup _ _ _ Hb), add_ok. simpl.
    rewrite (drop_S _ _ _ Hb), every_other_cons, drop_drop.
    unfold uint32.
    rewrite (Z.mod_small (Z.of_nat i + 1)) by lia.
    rewrite (Z.mod_small (Z.of_nat i + 1 + 1)) by lia.
    replace (Z.of_nat i + 1 + 1) with (Z.of_nat (S i + 1)) by lia.
    rewrite IH.
    2:{ rewrite length_drop in *. lia. }
    rewrite <- app_assoc. simpl. rewrite Nat.add_0_r.
    do 3 f_equal.
    apply imap_ext. intros j x _. simpl.
    rewrite length_app. simpl. do 2 f_equal. lia.
  - rewrite drop_ge by lia. simpl. by rewrite app_nil_r.
Qed.

End RequestLoop.

(** On a camera stack where every call succeeds and the negotiated
    buffer count [n] is the number of allocated buffers, [init] succeeds
    and binds the buffers of even index only: (n + 1) / 2 requests. *)
Lemma init_binds_every_other_buffer (cam : CameraStack)
    (callback : option (CameraFrame -> CallResult)) (width height : Z)
    (status : ConfigStatus) (config : StreamConfiguration) :
  manager_start cam = 0 ->
  cameras cam <> [] ->
  manager_get cam = true ->
  acquire cam = 0 ->
  validate cam {| pixelFormat := NV12; size_width := width; size_height := height;
                  stride := stride (generateConfiguration cam); bufferCount := 1 |}
  = (status, config) ->
  status <> Invalid ->
  configure cam = 0 ->
  0 <= allocate cam ->
  bufferCount config = Z.of_nat (length (buffers cam)) ->
  Z.of_nat (length (buffers cam)) + 1 < 2 ^ 32 ->
  (forall k, createRequest cam k = true) ->
  (forall k b, addBuffer cam k b = 0) ->
  exists this,
    CameraHandler_init cam (S (length (buffers cam))) (CameraHandler_new callback) width height
    = Some (Returns {| cam_ok := true; cam_this := this;
                       cam_events := [ConnectRequestCompleted] |})
    /\ stream_ this = Some config
    /\ bound_buffers this = every_other (buffers cam)
    /\ length (requests_ this) = Nat.div2 (S (length (buffers cam))).
Proof.
  intros Hstart Hcams Hget Hacq Hval Hstatus Hconf Halloc Hcount Hfits Hcreate Hadd.
  unfold CameraHandler_init.
  rewrite Hstart, Hget, Hacq, Hval, Hconf. cbn [negb Z.eqb].
  rewrite bool_decide_eq_false_2 by done.
  destruct (Z.ltb_spec (allocate cam) 0) as [Hneg|_]; [lia|].
  cbn [requests_ stream_ frame_callback_ CameraHandler_new].
  rewrite Hcount.
  pose proof (create_requests_every_other cam Hcreate Hadd Hfits
                (S (length (buffers cam))) 0 []) as Hloop.
  rewrite drop_0 in Hloop. change (Z.of_nat 0) with 0 in Hloop.
  assert (bound : buffer <$>
            imap (fun j b => {| cookie := Z.of_nat j; buffer := b |})
                 (every_other (buffers cam))
          = every_other (buffers cam)).
  { generalize (every_other (buffers cam)). intros l.
    rewrite fmap_imap. clear. induction l as [|x l IH] using rev_ind; [done|].
    by rewrite imap_app, IH. }
  destruct status; [| |done].
  all: rewrite Hloop by lia.
  all: eexists; split; [reflexivity|]; simpl.
  all: split; [done|]; split; [exact bound|].
  all: by rewrite length_imap, every_other_length.
Qed.

(** C2 fails on the code as soon as more than one buffer is
    negotiated: with 4 buffers allocated and a read-back count of 4,
    init succeeds and holds 2 requests, bound to buffers 0 and 2;
    buffers 1 and 3 are bound to no request. *)
Theorem C2_four_buffers_two_requests :
  CameraHandler_init four_buffer_camera 5 (CameraHandler_new None) 640 480
  = Some (Returns
      {| cam_ok := true;
         cam_this :=
           {| frame_callback_ := None;
              stream_ := Some {| pixelFormat := NV12; size_width := 640;
                                 size_height := 480; stride := 640; bufferCount := 4 |};
              requests_ := [{| cookie := 0; buffer := nv12_buffer 20 |};
                            {| cookie := 1; buffer := nv12_buffer 22 |}] |};
         cam_events := [ConnectRequestCompleted] |})
  /\ buffers four_buffer_camera
     = [nv12_buffer 20; nv12_buffer 21; nv12_buffer 22; nv12_buffer 23]
  /\ length (requests_of
       (CameraHandler_init four_buffer_camera 5 (CameraHandler_new None) 640 480))
     <> length (buffers four_buffer_camera).
Proof.
  split; [reflexivity|]. split; [reflexivity|]. vm_compute. discriminate.
Qed.

(** ** CameraHandler::requestComplete *)









(** Outside the five paths: a consumer that throws on an NV12 frame
    takes the exception out of the callback, past the label [bailout]. *)
Lemma consumer_exception_skips_bailout (this : CameraHandler) (os : Platform)
    (request : Request) (configuration : StreamConfiguration)
    (callback : CameraFrame -> CallResult) (addr : Z) (bytes : list byte) :
  stream_ this = Some configuration ->
  pixelFormat configuration = NV12 ->
  (forall len fd, mmap os len fd = Some (addr, bytes)) ->
  frame_callback_ this = Some callback ->
  (forall frame, callback frame = CallThrows) ->
  exit (requestComplete this os RequestComplete request) = Propagated
  /\ count is_munmap (trace (requestComplete this os RequestComplete request)) = 0%nat
  /\ count is_queue (trace (requestComplete this os RequestComplete request)) = 0%nat.
Proof.
  intros Hstream Hformat Hmmap Hcallback Hthrows.
  unfold requestComplete, pass_frame.
  destruct (decide (RequestComplete = RequestComplete)); [|done].
  by rewrite Hstream, Hmmap, Hformat, Hcallback, Hthrows.
Qed.

(** C6: a completion whose status is not RequestComplete maps nothing,
    delivers no frame, requeues the request and returns; the consumer is
    not called, so nothing it could throw leaves the callback. *)
Theorem C6_failed_completion_only_requeues (this : CameraHandler) (os : Platform)
    (status : RequestStatus) (request : Request) :
  status <> RequestComplete ->
  requestComplete this os status request
  = {| trace := [ECerr "Request failed";
                 EReuse (cookie request); EQueue (cookie request)];
       exit := Returned |}
  /\ count is_mmap (trace (requestComplete this os status request)) = 0%nat
  /\ count is_frame (trace (requestComplete this os status request)) = 0%nat
  /\ count is_queue (trace (requestComplete this os status request)) = 1%nat.
Proof.
  intros Hstatus. unfold requestComplete.
  destruct (decide (status = RequestComplete)); done.
Qed.

Lemma C6_failed_completion_only_requeues_witness :
  requestComplete (streaming NV12 (fun _ => CallThrows)) failing_platform
    RequestCancelled sample_request
  = {| trace := [ECerr "Request failed";
                 EReuse (cookie sample_request); EQueue (cookie sample_request)];
       exit := Returned |}
  /\ count is_mmap
       (trace (requestComplete (streaming NV12 (fun _ => CallThrows)) failing_platform
                 RequestCancelled sample_request)) = 0%nat
  /\ count is_frame
       (trace (requestComplete (streaming NV12 (fun _ => CallThrows)) failing_platform
                 RequestCancelled sample_request)) = 0%nat
  /\ count is_queue
       (trace (requestComplete (streaming NV12 (fun _ => CallThrows)) failing_platform
                 RequestCancelled sample_request)) = 1%nat.
Proof.
  apply (C6_failed_completion_only_requeues (streaming NV12 (fun _ => CallThrows))
           failing_platform RequestCancelled sample_request).
  discriminate.
Defined.

(** The five paths of the callback on one request: what each one does. *)
Example completion_paths :
  let returns := fun _ : CameraFrame => CallReturns in
  let frame := {| frame_data := ["007"; "008"; "009"]%byte; width := 1; height := 1 |} in
  trace (requestComplete (streaming NV12 returns) (mapping_platform sample_mat)
           RequestCancelled sample_request)
  = [ECerr "Request failed"; EReuse 0; EQueue 0]
  /\ trace (requestComplete (streaming NV12 returns) failing_platform
              RequestComplete sample_request)
     = [EMmap 460800 20 None; ECerr "Failed to mmap buffer!"; EReuse 0; EQueue 0]
  /\ trace (requestComplete (streaming MJPEG returns) (mapping_platform empty_mat)
              RequestComplete sample_request)
     = [EMmap 460800 20 (Some 4096); ECerr "Failed to decode MJPEG frame!";
        EMunmap 4096 460800; EReuse 0; EQueue 0]
  /\ trace (requestComplete (streaming (OtherFormat 0) returns) (mapping_platform sample_mat)
              RequestComplete sample_request)
     = [EMmap 460800 20 (Some 4096); ECerr "Skipping unsupported frame.";
        EMunmap 4096 460800; EReuse 0; EQueue 0]
  /\ trace (requestComplete (streaming NV12 returns) (mapping_platform sample_mat)
              RequestComplete sample_request)
     = [EMmap 460800 20 (Some 4096); EFrame frame;
        EMunmap 4096 460800; EReuse 0; EQueue 0].
Proof. repeat split. Qed.

(** * Further properties of the code *)

(** ** ModelInterpreter::init *)

(** X1: init succeeds exactly when the label file opens, the model file
    parses, the builder yields an interpreter, the tensors are allocated
    and input tensor 0 has rank four; the object then holds the label
    lines, the interpreter, and the NHWC extents: height from position 1,
    width from position 2, channels from position 3. *)
Theorem init_succeeds_iff (files : ModelFiles) (this : ModelInterpreter) :
  init_ok (ModelInterpreter_init files this) = true
  <-> exists lines interp batch h w c,
        label_file files = Some lines
        /\ BuildFromFile files = true
        /\ builder files = Some interp
        /\ AllocateTensors files = kTfLiteOk
        /\ dims (input_tensor interp) = [batch; h; w; c]
        /\ init_cerr (ModelInterpreter_init files this) = []
        /\ getClassLabels (init_this (ModelInterpreter_init files this)) = lines
        /\ interpreter_ (init_this (ModelInterpreter_init files this)) = Some interp
        /\ getInputHeight (init_this (ModelInterpreter_init files this)) = h
        /\ getInputWidth (init_this (ModelInterpreter_init files this)) = w
        /\ model_input_channels_ (init_this (ModelInterpreter_init files this)) = c
        /\ model_input_type_ (init_this (ModelInterpreter_init files this))
           = type (input_tensor interp).
Proof.
  unfold ModelInterpreter_init. split.
  - destruct (label_file files) as [lines|]; [|done].
    destruct (BuildFromFile files); [|done]. simpl.
    destruct (builder files) as [interp|]; [|done].
    destruct (decide (AllocateTensors files = kTfLiteOk)) as [Halloc|]; [|done].
    destruct (dims (input_tensor interp)) as [|batch [|h [|w [|c [|more rest]]]]] eqn:Hdims;
      try done.
    intros _. exists lines, interp, batch, h, w, c. by repeat split.
  - intros (lines & interp & batch & h & w & c & -> & -> & -> & -> & -> & _). simpl.
    by destruct (decide (kTfLiteOk = kTfLiteOk)).
Qed.

(** X23: A failed init writes exactly one diagnostic, a successful one none. *)
Theorem init_one_diagnostic_per_failure (files : ModelFiles) (this : ModelInterpreter) :
  length (init_cerr (ModelInterpreter_init files this))
  = if init_ok (ModelInterpreter_init files this) then 0%nat else 1%nat.
Proof.
  unfold ModelInterpreter_init.
  destruct (label_file files); [|done].
  destruct (BuildFromFile files); [|done]. simpl.
  destruct (builder files) as [interp|]; [|done].
  destruct (decide (AllocateTensors files = kTfLiteOk)); [|done].
  by destruct (dims (input_tensor interp)) as [|? [|? [|? [|? [|? ?]]]]].
Qed.

(** X2: Labels are cleared before they are read and every other member is
    overwritten: a second init on the same files changes nothing. *)
Theorem init_idempotent (files : ModelFiles) (this : ModelInterpreter) :
  ModelInterpreter_init files (init_this (ModelInterpreter_init files this))
  = ModelInterpreter_init files this.
Proof.
  unfold ModelInterpreter_init. destruct this.
  destruct (label_file files); [|done].
  destruct (BuildFromFile files); [|done]. simpl.
  destruct (builder files) as [interp|]; [|done].
  destruct (decide (AllocateTensors files = kTfLiteOk)); [|done].
  by destruct (dims (input_tensor interp)) as [|? [|? [|? [|? [|? ?]]]]].
Qed.

(** X3: The input element type is assigned on init's success path
    only. On an object that was never initialised successfully (its
    input element type is still neither uint8 nor float32, as after
    construction), a failed init leaves it so: runInference returns the
    empty list with the unsupported-input diagnostic, marshals nothing
    and does not reach the interpreter, whatever the image. *)
Theorem runInference_after_failed_init (files : ModelFiles) (this : ModelInterpreter)
    (image_data : list byte) :
  model_input_type_ this <> kTfLiteUInt8 ->
  model_input_type_ this <> kTfLiteFloat32 ->
  init_ok (ModelInterpreter_init files this) = false ->
  runInference (init_this (ModelInterpreter_init files this)) image_data
  = Returns {| run_this := init_this (ModelInterpreter_init files this);
               run_input := None;
               run_cerr := [UnsupportedInputTensorType (model_input_type_ this)];
               run_detections := [] |}.
Proof.
  intros Hu8 Hf32.
  assert (forall object : ModelInterpreter,
            model_input_type_ object = model_input_type_ this ->
            runInference object image_data
            = Returns {| run_this := object; run_input := None;
                         run_cerr := [UnsupportedInputTensorType (model_input_type_ this)];
                         run_detections := [] |}) as Hunsupported.
  { intros object Htype. unfold runInference, marshal_input. rewrite Htype.
    by destruct (model_input_type_ this). }
  unfold ModelInterpreter_init.
  destruct (label_file files) as [lines|]; [|intros _; by apply Hunsupported].
  destruct (BuildFromFile files); [|intros _; by apply Hunsupported]. simpl.
  destruct (builder files) as [interp|]; [|intros _; by apply Hunsupported].
  destruct (decide (AllocateTensors files = kTfLiteOk));
    [|intros _; by apply Hunsupported].
  destruct (dims (input_tensor interp)) as [|? [|? [|? [|? [|? ?]]]]];
    try (intros _; by apply Hunsupported).
  discriminate.
Qed.

Lemma runInference_after_failed_init_witness :
  runInference
    (init_this (ModelInterpreter_init (files_of rank3_input_model) ModelInterpreter_new))
    rgb_pixel
  = Returns {| run_this :=
                 init_this (ModelInterpreter_init (files_of rank3_input_model)
                                                  ModelInterpreter_new);
               run_input := None;
               run_cerr := [UnsupportedInputTensorType
                              (model_input_type_ ModelInterpreter_new)];
               run_detections := [] |}.
Proof.
  apply (runInference_after_failed_init (files_of rank3_input_model)
           ModelInterpreter_new rgb_pixel).
  - simpl. discriminate.
  - simpl. discriminate.
  - reflexivity.
Defined.

Lemma init_succeeds_iff_witness :
  exists lines interp batch h w c,
    label_file (files_of (model_with_output float_output)) = Some lines
    /\ BuildFromFile (files_of (model_with_output float_output)) = true
    /\ builder (files_of (model_with_output float_output)) = Some interp
    /\ AllocateTensors (files_of (model_with_output float_output)) = kTfLiteOk
    /\ dims (input_tensor interp) = [batch; h; w; c]
    /\ init_cerr (ModelInterpreter_init (files_of (model_with_output float_output))
                                        ModelInterpreter_new) = []
    /\ getClassLabels (loaded (model_with_output float_output)) = lines
    /\ interpreter_ (loaded (model_with_output float_output)) = Some interp
    /\ getInputHeight (loaded (model_with_output float_output)) = h
    /\ getInputWidth (loaded (model_with_output float_output)) = w
    /\ model_input_channels_ (loaded (model_with_output float_output)) = c
    /\ model_input_type_ (loaded (model_with_output float_output))
       = type (input_tensor interp).
Proof.
  apply (proj1 (init_succeeds_iff (files_of (model_with_output float_output))
                                  ModelInterpreter_new)).
  reflexivity.
Defined.

(** ** ModelInterpreter::runInference: what holds of every result *)

Lemma uint8_loop_class_ids (this : ModelInterpreter) (raw : list byte) (trips : nat)
    (i : Z) (acc detections : list Detection) :
  uint8_loop this raw trips i acc = Returns detections ->
  class_id <$> detections
  = (class_id <$> acc) ++ ((fun k => i + Z.of_nat k) <$> seq 0 trips).
Proof.
  revert i acc. induction trips as [|trips IH]; intros i acc Hrun; simpl in Hrun.
  - simplify_eq. simpl. by rewrite app_nil_r.
  - destruct (index raw i) as [q|]; simpl in Hrun; [|done].
    destruct (int_op _) as [d|]; simpl in Hrun; [|done].
    rewrite (IH _ _ Hrun), fmap_app, <- app_assoc. simpl.
    rewrite Z.add_0_r. do 2 f_equal.
    rewrite <- (fmap_S_seq 0), <- list_fmap_compose.
    apply list_fmap_ext. intros _ k _. simpl. lia.
Qed.

Lemma float_loop_class_ids (raw : list float) (trips : nat)
    (i : Z) (acc detections : list Detection) :
  float_loop raw trips i acc = Returns detections ->
  class_id <$> detections
  = (class_id <$> acc) ++ ((fun k => i + Z.of_nat k) <$> seq 0 trips).
Proof.
  revert i acc. induction trips as [|trips IH]; intros i acc Hrun; simpl in Hrun.
  - simplify_eq. simpl. by rewrite app_nil_r.
  - destruct (index raw i) as [f|]; simpl in Hrun; [|done].
    rewrite (IH _ _ Hrun), fmap_app, <- app_assoc. simpl.
    rewrite Z.add_0_r. do 2 f_equal.
    rewrite <- (fmap_S_seq 0), <- list_fmap_compose.
    apply list_fmap_ext. intros _ k _. simpl. lia.
Qed.

Ltac early_return Hrun :=
  simplify_eq; simpl;
  split; [by eauto|];
  try (split; [done|]);
  left; split; [done|simpl; lia].

(** Every way [postprocess] returns: an early return with one
    diagnostic or with an unsupported element type, or the result of one
    of the two loops over [dims->data[1]] classes. *)
Lemma postprocess_inv (this : ModelInterpreter) (input : TensorData)
    (output : option TfLiteTensor) (r : InferenceRun) :
  postprocess this input output = Returns r ->
  (run_this r = this \/ exists t, run_this r = set_output_type this t)
  /\ run_input r = Some input
  /\ ((run_detections r = [] /\ (length (run_cerr r) <= 1)%nat)
      \/ (run_cerr r = []
          /\ exists trips, class_id <$> run_detections r = Z.of_nat <$> seq 0 trips)).
Proof.
  unfold postprocess. intros Hrun.
  destruct output as [output|]; [|early_return Hrun].
  destruct (index (dims output) 1) as [n|]; simpl in Hrun; [|done].
  destruct (_ || _); [early_return Hrun|].
  destruct (type output); simpl in Hrun; try (early_return Hrun).
  - destruct (typed_float output) as [raw|].
    + destruct (float_loop raw _ 0 []) as [dets|] eqn:Hloop; simpl in Hrun; [|done].
      simplify_eq. simpl. split; [by eauto|]. split; [done|]. right. split; [done|].
      exists (Z.to_nat n). rewrite (float_loop_class_ids _ _ _ _ _ Hloop). simpl.
      apply list_fmap_ext. intros _ k _. lia.
    + destruct (0 <? n); simpl in Hrun; [done|]. early_return Hrun.
  - destruct (typed_uint8 output) as [raw|].
    + destruct (uint8_loop _ raw _ 0 []) as [dets|] eqn:Hloop; simpl in Hrun; [|done].
      simplify_eq. simpl. split; [by eauto|]. split; [done|]. right. split; [done|].
      exists (Z.to_nat n). rewrite (uint8_loop_class_ids _ _ _ _ _ _ Hloop). simpl.
      apply list_fmap_ext. intros _ k _. lia.
    + destruct (0 <? n); simpl in Hrun; [done|]. early_return Hrun.
Qed.

Lemma runInference_inv (this : ModelInterpreter) (image_data : list byte)
    (r : InferenceRun) :
  runInference this image_data = Returns r ->
  (run_this r = this \/ exists t, run_this r = set_output_type this t)
  /\ ((run_detections r = [] /\ (length (run_cerr r) <= 1)%nat)
      \/ (run_cerr r = []
          /\ exists trips, class_id <$> run_detections r = Z.of_nat <$> seq 0 trips)).
Proof.
  unfold runInference. intros Hrun.
  destruct (marshal_input this image_data) as [[input|]|]; simpl in Hrun;
    [|early_return Hrun|done].
  destruct (interpreter_ this) as [interp|]; simpl in Hrun; [|done].
  destruct (Invoke interp input) as [status output].
  destruct (decide (status ≠ kTfLiteOk)); [early_return Hrun|].
  destruct (postprocess_inv _ _ _ _ Hrun) as (Hthis & _ & Hdets). done.
Qed.

Lemma positional_of_trips (detections : list Detection) (trips : nat) :
  class_id <$> detections = Z.of_nat <$> seq 0 trips ->
  class_id <$> detections = Z.of_nat <$> seq 0 (length detections).
Proof.
  intros Hids.
  assert (length detections = trips) as <-; [|done].
  by rewrite <- (length_fmap class_id), Hids, length_fmap, length_seq.
Qed.

(** What the consumer relies on after a call that returned. *)
Lemma runInference_for_consumer (this : ModelInterpreter) (image_data : list byte)
    (r : InferenceRun) :
  runInference this image_data = Returns r ->
  getClassLabels (run_this r) = getClassLabels this
  /\ class_id <$> run_detections r = Z.of_nat <$> seq 0 (length (run_detections r))
  /\ (run_cerr r <> [] -> run_detections r = []).
Proof.
  intros Hrun.
  destruct (runInference_inv _ _ _ Hrun) as ([->|[t ->]] & [[-> _]|(-> & trips & Hids)]);
    repeat split; try done; by apply (positional_of_trips _ trips).
Qed.

(** X4: Whenever runInference returns, the Detection at position k has
    class_id k: the list can be indexed by class. No assumption on the
    model or on the tensors. *)
Theorem runInference_class_ids_positional (this : ModelInterpreter)
    (image_data : list byte) (r : InferenceRun) :
  runInference this image_data = Returns r ->
  class_id <$> run_detections r = Z.of_nat <$> seq 0 (length (run_detections r)).
Proof.
  intros Hrun.
  destruct (runInference_inv _ _ _ Hrun) as (_ & [[-> _]|(_ & trips & Hids)]); [done|].
  by apply (positional_of_trips _ trips).
Qed.

(** X5: Whenever runInference writes a diagnostic, the list it returns is
    empty: a caller cannot tell a failed inference from a model without
    classes by the result alone. *)
Theorem runInference_diagnostic_means_empty (this : ModelInterpreter)
    (image_data : list byte) (r : InferenceRun) :
  runInference this image_data = Returns r ->
  run_cerr r <> [] ->
  run_detections r = [].
Proof.
  intros Hrun Hcerr.
  by destruct (runInference_inv _ _ _ Hrun) as (_ & [[-> _]|(? & _)]).
Qed.

(** X6: runInference assigns no member but [model_output_type_]: labels,
    interpreter, input extents and type, and the quantization members
    are the same after the call. *)
Theorem runInference_keeps_members (this : ModelInterpreter)
    (image_data : list byte) (r : InferenceRun) :
  runInference this image_data = Returns r ->
  getClassLabels (run_this r) = getClassLabels this
  /\ interpreter_ (run_this r) = interpreter_ this
  /\ getInputWidth (run_this r) = getInputWidth this
  /\ getInputHeight (run_this r) = getInputHeight this
  /\ model_input_channels_ (run_this r) = model_input_channels_ this
  /\ model_input_type_ (run_this r) = model_input_type_ this
  /\ model_output_scale_ (run_this r) = model_output_scale_ this
  /\ model_output_zero_ (run_this r) = model_output_zero_ this.
Proof.
  intros Hrun.
  by destruct (runInference_inv _ _ _ Hrun) as ([->|[t ->]] & _).
Qed.

Lemma runInference_class_ids_positional_witness :
  exists r,
    runInference (loaded (model_with_output float_output)) rgb_pixel = Returns r
    /\ class_id <$> run_detections r = Z.of_nat <$> seq 0 (length (run_detections r)).
Proof.
  eexists. split; [reflexivity|].
  apply (runInference_class_ids_positional
           (loaded (model_with_output float_output)) rgb_pixel).
  reflexivity.
Defined.

Lemma runInference_diagnostic_means_empty_witness :
  exists r,
    runInference (loaded (model_with_output scenarioC_output)) rgb_pixel = Returns r
    /\ run_cerr r = [UnexpectedOutputShape]
    /\ run_detections r = [].
Proof.
  eexists. split; [reflexivity|]. split; [reflexivity|].
  apply (runInference_diagnostic_means_empty
           (loaded (model_with_output scenarioC_output)) rgb_pixel).
  - reflexivity.
  - simpl. discriminate.
Defined.

Lemma runInference_keeps_members_witness :
  exists r,
    runInference (loaded (model_with_output float_output)) rgb_pixel = Returns r
    /\ getClassLabels (run_this r) = getClassLabels (loaded (model_with_output float_output))
    /\ interpreter_ (run_this r) = interpreter_ (loaded (model_with_output float_output))
    /\ getInputWidth (run_this r) = getInputWidth (loaded (model_with_output float_output))
    /\ getInputHeight (run_this r) = getInputHeight (loaded (model_with_output float_output))
    /\ model_input_channels_ (run_this r)
       = model_input_channels_ (loaded (model_with_output float_output))
    /\ model_input_type_ (run_this r)
       = model_input_type_ (loaded (model_with_output float_output))
    /\ model_output_scale_ (run_this r)
       = model_output_scale_ (loaded (model_with_output float_output))
    /\ model_output_zero_ (run_this r)
       = model_output_zero_ (loaded (model_with_output float_output)).
Proof.
  eexists. split; [reflexivity|].
  apply (runInference_keeps_members
           (loaded (model_with_output float_output)) rgb_pixel).
  reflexivity.
Defined.

(** ** From init to the reported class, for byte output tensors *)

(** X7: On the object init leaves, a well-formed byte output tensor of n
    classes gives n Detections of confidence +0, and the consumer's
    selection over them is index 0 with maximum 0: for a model with a
    quantized output the class reported does not depend on the output. *)
Theorem byte_output_always_reports_class_0 (files : ModelFiles) (interp : Interpreter)
    (image_data : list byte) (input : TensorData) (output : TfLiteTensor) (n : Z) :
  interpreter_ (init_this (ModelInterpreter_init files ModelInterpreter_new)) = Some interp ->
  marshal_input (init_this (ModelInterpreter_init files ModelInterpreter_new)) image_data
  = Returns (Some input) ->
  Invoke interp input = (kTfLiteOk, Some output) ->
  dims output = [1; n] ->
  tensor_wf output ->
  type output = kTfLiteUInt8 ->
  exists r,
    runInference (init_this (ModelInterpreter_init files ModelInterpreter_new)) image_data
    = Returns r
    /\ Z.of_nat (length (run_detections r)) = n
    /\ Forall (fun d => confidence d = Float32.zero) (run_detections r)
    /\ select_best (run_detections r) = (0, Float32.zero).
Proof.
  intros Hinterp Hmarshal Hinvoke Hdims Hwf Htype.
  destruct (init_output_quantization files) as [Hscale Hzero].
  set (this := init_this (ModelInterpreter_init files ModelInterpreter_new)) in *.
  destruct (typed_uint8_wf _ Hwf Htype) as (raw & Htyped & Hlen).
  rewrite Hdims in Hlen. simpl in Hlen.
  assert (Z.of_nat (length raw) = n) as Hn by lia.
  assert (255 - INT_MAX <= model_output_zero_ this <= INT_MAX) as Hrange.
  { rewrite Hzero. unfold INT_MAX. lia. }
  rewrite (runInference_postprocess _ _ _ _ _ Hinterp Hmarshal Hinvoke).
  rewrite (postprocess_uint8 _ _ _ _ _ Hdims Htype Htyped Hn Hrange).
  eexists. split; [reflexivity|]. simpl.
  assert (Forall (fun d => confidence d = Float32.zero)
            (imap (fun k q =>
                     {| class_id := Z.of_nat k;
                        confidence :=
                          Float32.mul (model_output_scale_ this)
                            (Float32.of_int (uint8_val q - model_output_zero_ this)) |})
                  raw)) as Hall.
  { apply Forall_forall. intros d Hd.
    apply list_elem_of_lookup in Hd as [k Hk].
    rewrite list_lookup_imap in Hk.
    destruct (raw !! k) as [q|]; simpl in Hk; [|done]. simplify_eq. simpl.
    rewrite Hscale, Hzero. apply zero_scale_dequantizes_to_zero. }
  split; [by rewrite length_imap|]. split; [done|].
  unfold select_best. apply select_loop_nothing_positive.
  eapply Forall_impl; [exact Hall|]. intros d ->. reflexivity.
Qed.

Lemma byte_output_always_reports_class_0_witness :
  exists r,
    runInference
      (init_this (ModelInterpreter_init (files_of (model_with_output scenarioA_output))
                                        ModelInterpreter_new)) rgb_pixel
    = Returns r
    /\ Z.of_nat (length (run_detections r)) = 4
    /\ Forall (fun d => confidence d = Float32.zero) (run_detections r)
    /\ select_best (run_detections r) = (0, Float32.zero).
Proof.
  apply (byte_output_always_reports_class_0
           (files_of (model_with_output scenarioA_output))
           (model_with_output scenarioA_output)
           rgb_pixel (U8Data rgb_pixel) scenarioA_output 4).
  - reflexivity.
  - reflexivity.
  - reflexivity.
  - reflexivity.
  - vm_compute. reflexivity.
  - reflexivity.
Defined.

(** ** main.cpp: the selection is a maximum *)

Lemma gt_irreflexive (x : float) : Float32.gt x x = false.
Proof.
  unfold Float32.gt, SFltb, SFcompare.
  destruct x as [[]|[]| |[] m e]; try done.
  - rewrite Z.compare_refl.
    change (Pos.compare_cont Eq m m) with (Pos.compare m m).
    by rewrite Pos.compare_refl.
  - rewrite Z.compare_refl.
    change (Pos.compare_cont Eq m m) with (Pos.compare m m).
    by rewrite Pos.compare_refl.
Qed.

Lemma gt_transitive (x y z : float) :
  Float32.gt x y = true -> Float32.gt y z = true -> Float32.gt x z = true.
Proof.
  unfold Float32.gt, SFltb, SFcompare.
  destruct x as [[]|[]| |[] mx ex], y as [[]|[]| |[] my ey], z as [[]|[]| |[] mz ez];
    try done.
  - change (Pos.compare_cont Eq ?a ?b) with (Pos.compare a b).
    destruct (Z.compare_spec ey ex), (Z.compare_spec ez ey), (Z.compare_spec ez ex);
      subst; simpl; try done; try lia.
    destruct (Pos.compare_spec my mx), (Pos.compare_spec mz my), (Pos.compare_spec mz mx);
      subst; simpl; try done; lia.
  - change (Pos.compare_cont Eq ?a ?b) with (Pos.compare a b).
    destruct (Z.compare_spec ey ex), (Z.compare_spec ez ey), (Z.compare_spec ez ex);
      subst; simpl; try done; try lia.
    destruct (Pos.compare_spec my mx), (Pos.compare_spec mz my), (Pos.compare_spec mz mx);
      subst; simpl; try done; lia.
Qed.

(** The invariant of the selection loop, started anywhere. *)
Lemma select_loop_invariant (detections : list Detection) (i argmax : Z)
    (max_confidence : float) :
  let result := select_loop detections i argmax max_confidence in
  Forall (fun d => Float32.gt (confidence d) (snd result) = false) detections
  /\ (Float32.gt max_confidence (snd result) = false)
  /\ (result = (argmax, max_confidence)
      \/ exists k d,
           detections !! k = Some d
           /\ result = (i + Z.of_nat k, confidence d)
           /\ Float32.gt (confidence d) max_confidence = true).
Proof.
  revert i argmax max_confidence.
  induction detections as [|d rest IH]; intros i argmax max_confidence; simpl.
  - split; [done|]. split; [apply gt_irreflexive|by left].
  - destruct (Float32.gt (confidence d) max_confidence) eqn:Hd.
    + destruct (IH (i + 1) i (confidence d)) as (Hall & Hmax & Hresult).
      split; [by constructor|]. split.
      * destruct (Float32.gt max_confidence
                    (select_loop rest (i + 1) i (confidence d)).2) eqn:Hcontra; [|done].
        by rewrite (gt_transitive _ _ _ Hd Hcontra) in Hmax.
      * right. destruct Hresult as [->|(k & d' & Hk & -> & Hgt)].
        -- exists 0%nat, d. split; [done|]. split; [|exact Hd].
           by replace (i + Z.of_nat 0) with i by lia.
        -- exists (S k), d'. split; [done|]. split.
           ++ by replace (i + Z.of_nat (S k)) with (i + 1 + Z.of_nat k) by lia.
           ++ apply (gt_transitive _ _ _ Hgt Hd).
    + destruct (IH (i + 1) argmax max_confidence) as (Hall & Hmax & Hresult).
      split; [|split; [done|]].
      * constructor; [|done].
        destruct (Float32.gt (confidence d)
                    (select_loop rest (i + 1) argmax max_confidence).2) eqn:Hcontra; [|done].
        destruct Hresult as [Heq|(k & d' & Hk & Heq & Hgt)]; rewrite Heq in Hcontra;
          simpl in Hcontra; [by rewrite Hcontra in Hd|].
        by rewrite (gt_transitive _ _ _ Hcontra Hgt) in Hd.
      * destruct Hresult as [->|(k & d' & Hk & -> & Hgt)]; [by left|].
        right. exists (S k), d'. split; [done|]. split; [|exact Hgt].
        by replace (i + Z.of_nat (S k)) with (i + 1 + Z.of_nat k) by lia.
Qed.

(** X8: The selection returns a maximum: no Detection has a confidence
    strictly above the selected one; the selected pair is either the
    initial (0, 0), or the index and the confidence of a Detection of
    the list whose confidence is strictly above 0. (A NaN confidence
    compares false and is never selected.) *)
Theorem select_best_is_maximum (detections : list Detection) :
  Forall (fun d => Float32.gt (confidence d) (snd (select_best detections)) = false)
         detections
  /\ (select_best detections = (0, Float32.zero)
      \/ exists k d,
           detections !! k = Some d
           /\ select_best detections = (Z.of_nat k, confidence d)
           /\ Float32.gt (confidence d) Float32.zero = true).
Proof.
  unfold select_best.
  destruct (select_loop_invariant detections 0 0 Float32.zero) as (Hall & _ & Hresult).
  split; [done|].
  destruct Hresult as [->|(k & d & Hk & -> & Hgt)]; [by left|].
  right. exists k, d. by rewrite Z.add_0_l.
Qed.

Lemma select_best_is_maximum_witness :
  Forall (fun d =>
            Float32.gt (confidence d)
              (snd (select_best [{| class_id := 0; confidence := Float32.of_int 3 |};
                                 {| class_id := 1; confidence := Float32.of_int 7 |};
                                 {| class_id := 2; confidence := Float32.of_int 7 |}]))
            = false)
         [{| class_id := 0; confidence := Float32.of_int 3 |};
          {| class_id := 1; confidence := Float32.of_int 7 |};
          {| class_id := 2; confidence := Float32.of_int 7 |}]
  /\ select_best [{| class_id := 0; confidence := Float32.of_int 3 |};
                  {| class_id := 1; confidence := Float32.of_int 7 |};
                  {| class_id := 2; confidence := Float32.of_int 7 |}]
     = (1, Float32.of_int 7).
Proof.
  split; [|reflexivity].
  apply (proj1 (select_best_is_maximum
                  [{| class_id := 0; confidence := Float32.of_int 3 |};
                   {| class_id := 1; confidence := Float32.of_int 7 |};
                   {| class_id := 2; confidence := Float32.of_int 7 |}])).
Defined.

(** ** main.cpp: processFrameAndInfer *)

Lemma index_in_range {A} (v : list A) (i : Z) :
  0 <= i < Z.of_nat (length v) -> exists x, index v i = Returns x.
Proof.
  intros Hi.
  destruct (lookup_lt_is_Some_2 v (Z.to_nat i)) as [x Hx]; [lia|].
  exists x. rewrite <- (Z2Nat.id i) by lia. by apply index_lookup.
Qed.

(** With every class_id inside the label list, the printing loop
    returns, prints one line per Detection, and selects what
    [select_loop] selects. *)
Lemma report_loop_in_range (class_labels : list string) (detections : list Detection)
    (i argmax : Z) (max_confidence : float) (lines : list (string * float)) :
  Forall (fun d => 0 <= class_id d < Z.of_nat (length class_labels)) detections ->
  exists lines',
    report_loop class_labels detections i argmax max_confidence lines
    = Returns (lines', fst (select_loop detections i argmax max_confidence),
               snd (select_loop detections i argmax max_confidence))
    /\ length lines' = (length lines + length detections)%nat.
Proof.
  intros Hall. revert i argmax max_confidence lines.
  induction Hall as [|d rest Hd _ IH]; intros i argmax max_confidence lines; simpl.
  - exists lines. split; [done|lia].
  - destruct (index_in_range class_labels (class_id d) Hd) as [label ->]. simpl.
    destruct (Float32.gt (confidence d) max_confidence).
    + destruct (IH (i + 1) i (confidence d) (lines ++ [(label, confidence d)]))
        as (lines' & -> & Hlen).
      exists lines'. split; [done|]. rewrite length_app in Hlen. simpl in Hlen. lia.
    + destruct (IH (i + 1) argmax max_confidence (lines ++ [(label, confidence d)]))
        as (lines' & -> & Hlen).
      exists lines'. split; [done|]. rewrite length_app in Hlen. simpl in Hlen. lia.
Qed.

(** The first class_id outside the label list stops the loop with a
    read past the end of [class_labels]. *)
Lemma report_loop_out_of_range (class_labels : list string)
    (before after : list Detection) (d : Detection)
    (i argmax : Z) (max_confidence : float) (lines : list (string * float)) :
  Forall (fun d => 0 <= class_id d < Z.of_nat (length class_labels)) before ->
  Z.of_nat (length class_labels) <= class_id d ->
  report_loop class_labels (before ++ d :: after) i argmax max_confidence lines
  = Undefined (OutOfBounds (class_id d)).
Proof.
  intros Hall Hd. revert i argmax max_confidence lines.
  induction Hall as [|d' rest Hd' _ IH]; intros i argmax max_confidence lines; simpl.
  - by rewrite index_beyond.
  - destruct (index_in_range class_labels (class_id d') Hd') as [label ->]. simpl.
    destruct (Float32.gt (confidence d') max_confidence); apply IH.
Qed.

Lemma positional_in_range (detections : list Detection) (bound : nat) :
  class_id <$> detections = Z.of_nat <$> seq 0 (length detections) ->
  (length detections <= bound)%nat ->
  Forall (fun d => 0 <= class_id d < Z.of_nat bound) detections.
Proof.
  intros Hids Hlen. apply Forall_forall. intros d Hd.
  apply list_elem_of_lookup in Hd as [k Hk].
  assert ((class_id <$> detections) !! k = Some (class_id d)) as Hid
    by (by rewrite list_lookup_fmap, Hk).
  rewrite Hids, list_lookup_fmap in Hid.
  apply lookup_lt_Some in Hk.
  rewrite lookup_seq_lt in Hid by done. simpl in Hid. simplify_eq. lia.
Qed.



(** X10: A label file with fewer lines than the model has classes: the
    printing loop reads [class_labels] past its end at the first class
    without a label. *)
Theorem processFrameAndInfer_short_label_list (interpreter : ModelInterpreter)
    (cv : ImageOps) (frame : CameraFrame) (run : InferenceRun) :
  runInference interpreter
    (cvtColor_BGR2RGB cv
       (resize cv frame (getInputWidth interpreter) (getInputHeight interpreter)))
  = Returns run ->
  (length (getClassLabels interpreter) < length (run_detections run))%nat ->
  processFrameAndInfer (Some interpreter) cv frame
  = Undefined (OutOfBounds (Z.of_nat (length (getClassLabels interpreter)))).
Proof.
  intros Hrun Hlen. unfold processFrameAndInfer.
  rewrite Hrun. simpl.
  destruct (runInference_for_consumer _ _ _ Hrun) as (-> & Hids & _).
  set (labels := getClassLabels interpreter) in *.
  destruct (lookup_lt_is_Some_2 (run_detections run) (length labels)) as [d Hd]; [lia|].
  assert (class_id d = Z.of_nat (length labels)) as Hid.
  { assert ((class_id <$> run_detections run) !! length labels = Some (class_id d)) as H
      by (by rewrite list_lookup_fmap, Hd).
    rewrite Hids, list_lookup_fmap, lookup_seq_lt in H by lia.
    simpl in H. by simplify_eq. }
  rewrite <- (take_drop_middle _ _ _ Hd).
  rewrite report_loop_out_of_range; [by rewrite Hid| |lia].
  apply Forall_forall. intros d' Hd'.
  apply list_elem_of_lookup in Hd' as [k Hk].
  pose proof (lookup_lt_Some _ _ _ Hk) as Hklt.
  rewrite length_take in Hklt.
  rewrite lookup_take_lt in Hk by lia.
  assert ((class_id <$> run_detections run) !! k = Some (class_id d')) as H
    by (by rewrite list_lookup_fmap, Hk).
  rewrite Hids, list_lookup_fmap, lookup_seq_lt in H by lia.
  simpl in H. simplify_eq. lia.
Qed.

Lemma processFrameAndInfer_short_label_list_witness :
  processFrameAndInfer
    (Some (set_labels (loaded (model_with_output float_output)) ["margherita"%string]))
    sample_cv sample_frame
  = Undefined (OutOfBounds 1).
Proof.
  apply (processFrameAndInfer_short_label_list
           (set_labels (loaded (model_with_output float_output)) ["margherita"%string])
           sample_cv sample_frame
           {| run_this :=
                set_output_type
                  (set_labels (loaded (model_with_output float_output))
                              ["margherita"%string]) kTfLiteFloat32;
              run_input := Some (U8Data (replicate 3 "128"%byte));
              run_cerr := [];
              run_detections :=
                [{| class_id := 0; confidence := Float32.of_scaled 1 (-2) |};
                 {| class_id := 1; confidence := Float32.of_scaled 3 (-2) |}] |}).
  - reflexivity.
  - simpl. lia.
Defined.

(** X11: A failed inference is reported like a detection: when runInference
    wrote a diagnostic, the consumer prints no confidence line and still
    reports the label at index 0 (a read past the end of an empty label
    list). *)
Theorem processFrameAndInfer_failure_reports_label_0 (interpreter : ModelInterpreter)
    (cv : ImageOps) (frame : CameraFrame) (run : InferenceRun) :
  runInference interpreter
    (cvtColor_BGR2RGB cv
       (resize cv frame (getInputWidth interpreter) (getInputHeight interpreter)))
  = Returns run ->
  run_cerr run <> [] ->
  processFrameAndInfer (Some interpreter) cv frame
  = (detected ← index (getClassLabels interpreter) 0;
     Returns {| report_interpreter := Some (run_this run);
                report_cerr := [];
                report_inference := run_cerr run;
                report_lines := [];
                report_detected := Some detected;
                report_shown := true |}).
Proof.
  intros Hrun Hcerr. unfold processFrameAndInfer.
  rewrite Hrun. simpl.
  destruct (runInference_for_consumer _ _ _ Hrun) as (-> & _ & Hempty).
  by rewrite (Hempty Hcerr).
Qed.

Lemma processFrameAndInfer_failure_reports_label_0_witness :
  processFrameAndInfer (Some (loaded (model_with_output scenarioC_output)))
                       sample_cv sample_frame
  = Returns {| report_interpreter :=
                 Some (set_output_type (loaded (model_with_output scenarioC_output))
                                       kTfLiteUInt8);
               report_cerr := [];
               report_inference := [UnexpectedOutputShape];
               report_lines := [];
               report_detected := Some "margherita"%string;
               report_shown := true |}.
Proof.
  apply (processFrameAndInfer_failure_reports_label_0
           (loaded (model_with_output scenarioC_output)) sample_cv sample_frame
           {| run_this := set_output_type (loaded (model_with_output scenarioC_output))
                                          kTfLiteUInt8;
              run_input := Some (U8Data (replicate 3 "128"%byte));
              run_cerr := [UnexpectedOutputShape];
              run_detections := [] |}).
  - reflexivity.
  - discriminate.
Defined.

(** X12: The consumer hands runInference the image OpenCV resized to
    the model's width and height; when that image has three bytes per
    pixel, a byte-input model that declares more than three channels
    makes the marshaling copy run past the end of the image. *)
Theorem more_than_three_channels_reads_past_image (interpreter : ModelInterpreter)
    (interp : Interpreter) (cv : ImageOps) (frame : CameraFrame) (old : list byte) :
  interpreter_ interpreter = Some interp ->
  model_input_type_ interpreter = kTfLiteUInt8 ->
  typed_uint8 (input_tensor interp) = Some old ->
  0 < getInputWidth interpreter ->
  0 < getInputHeight interpreter ->
  3 < model_input_channels_ interpreter ->
  getInputWidth interpreter * getInputHeight interpreter * model_input_channels_ interpreter
  <= INT_MAX ->
  Z.of_nat (length (cvtColor_BGR2RGB cv
              (resize cv frame (getInputWidth interpreter) (getInputHeight interpreter))))
  = getInputWidth interpreter * getInputHeight interpreter * 3 ->
  processFrameAndInfer (Some interpreter) cv frame
  = Undefined (OutOfBounds
      (getInputWidth interpreter * getInputHeight interpreter * 3)).
Proof.
  unfold getInputWidth, getInputHeight.
  intros Hinterp Htype Htyped Hw Hh Hc Hfits Himage.
  unfold processFrameAndInfer, runInference, marshal_input, getInputWidth, getInputHeight.
  rewrite Htype, Hinterp. simpl. rewrite Htyped. simpl.
  unfold input_count.
  assert (0 < model_input_width_ interpreter * model_input_height_ interpreter) by lia.
  rewrite int_op_fits by (unfold INT_MIN, INT_MAX in *; nia). simpl.
  rewrite int_op_fits by (unfold INT_MIN, INT_MAX in *; nia). simpl.
  unfold memcpy.
  destruct (Z.ltb_spec
              (model_input_width_ interpreter * model_input_height_ interpreter
               * model_input_channels_ interpreter) 0); [nia|].
  rewrite Himage.
  destruct (Z.ltb_spec
              (model_input_width_ interpreter * model_input_height_ interpreter * 3)
              (model_input_width_ interpreter * model_input_height_ interpreter
               * model_input_channels_ interpreter)); [done|nia].
Qed.

Lemma more_than_three_channels_reads_past_image_witness :
  processFrameAndInfer (Some (loaded rgba_input_model)) sample_cv sample_frame
  = Undefined (OutOfBounds
      (getInputWidth (loaded rgba_input_model)
       * getInputHeight (loaded rgba_input_model) * 3)).
Proof.
  apply (more_than_three_channels_reads_past_image
           (loaded rgba_input_model) rgba_input_model sample_cv sample_frame
           (replicate 8 "000"%byte)).
  - reflexivity.
  - reflexivity.
  - reflexivity.
  - vm_compute. reflexivity.
  - vm_compute. reflexivity.
  - vm_compute. reflexivity.
  - vm_compute. discriminate.
  - vm_compute. reflexivity.
Defined.

(** ** CameraHandler::init: whatever the camera stack answers *)

Section AnyCameraStack.

Variable cam : CameraStack.
Variable n : Z.
Hypothesis count_fits : n + 1 < 2 ^ 32.

(** The loop index gains two per iteration, so [n + 1] units of fuel
    are never used up. *)
Lemma create_requests_terminates (fuel : nat) (i : Z) (requests : list Request) :
  0 <= i ->
  (Z.to_nat (n - i) < fuel)%nat ->
  create_requests cam n fuel i requests <> LoopOutOfFuel.
Proof.
  revert i requests.
  induction fuel as [|fuel IH]; intros i requests Hi Hfuel; [lia|].
  cbn [create_requests].
  destruct (Z.ltb_spec i n) as [Hlt|_]; [|done].
  destruct (createRequest cam _); [|done].
  destruct (index (buffers cam) i) as [b|]; [|done].
  destruct (addBuffer cam _ b =? 0); [|done].
  unfold uint32.
  rewrite (Z.mod_small (i + 1)) by lia.
  rewrite (Z.mod_small (i + 1 + 1)) by lia.
  apply IH; lia.
Qed.

(** Whether the loop completes or fails, the requests it holds are
    numbered in order and bound, in order, to a prefix of the buffers
    at [i], [i + 2], [i + 4], ... *)
Lemma create_requests_prefix (fuel : nat) (i : nat) (requests result : list Request) :
  create_requests cam n fuel (Z.of_nat i) requests = LoopDone result
  \/ (exists message,
        create_requests cam n fuel (Z.of_nat i) requests = LoopFailed result message) ->
  exists k,
    result
    = requests ++
      imap (fun j b => {| cookie := Z.of_nat (length requests + j); buffer := b |})
           (take k (every_other (drop i (buffers cam)))).
Proof.
  revert i requests result.
  induction fuel as [|fuel IH]; intros i requests result Hrun.
  { destruct Hrun as [Hrun|[message Hrun]]; discriminate. }
  cbn [create_requests] in Hrun.
  destruct (Z.ltb_spec (Z.of_nat i) n) as [Hlt|_].
  2:{ exists 0%nat. rewrite take_0. simpl. rewrite app_nil_r.
      destruct Hrun as [Hrun|[message Hrun]]; by simplify_eq. }
  destruct (createRequest cam _).
  2:{ exists 0%nat. rewrite take_0. simpl. rewrite app_nil_r.
      destruct Hrun as [Hrun|[message Hrun]]; by simplify_eq. }
  destruct (index (buffers cam) (Z.of_nat i)) as [b|] eqn:Hb.
  2:{ destruct Hrun as [Hrun|[message Hrun]]; discriminate. }
  assert (buffers cam !! i = Some b) as Hlookup.
  { unfold index in Hb. destruct (Z.ltb_spec (Z.of_nat i) 0); [done|].
    rewrite Nat2Z.id in Hb. destruct (buffers cam !! i); by simplify_eq. }
  destruct (addBuffer cam _ b =? 0).
  2:{ exists 0%nat. rewrite take_0. simpl. rewrite app_nil_r.
      destruct Hrun as [Hrun|[message Hrun]]; by simplify_eq. }
  unfold uint32 in Hrun.
  rewrite (Z.mod_small (Z.of_nat i + 1)) in Hrun by lia.
  rewrite (Z.mod_small (Z.of_nat i + 1 + 1)) in Hrun by lia.
  replace (Z.of_nat i + 1 + 1) with (Z.of_nat (S i + 1)) in Hrun by lia.
  destruct (IH _ _ _ Hrun) as [k ->].
  exists (S k).
  rewrite (drop_S _ _ _ Hlookup), every_other_cons, drop_drop.
  rewrite <- app_assoc. simpl. rewrite Nat.add_0_r.
  do 2 f_equal.
  apply imap_ext. intros j x _. simpl.
  rewrite length_app. simpl. do 2 f_equal. lia.
Qed.

End AnyCameraStack.

(** X13: init always comes back: for every camera stack, with a negotiated
    buffer count n below 2^32 - 1, n + 1 units of fuel are enough for
    the request loop, whatever createRequest and addBuffer answer. *)
Theorem CameraHandler_init_terminates (cam : CameraStack) (fuel : nat)
    (this : CameraHandler) (width height : Z) :
  bufferCount
    (snd (validate cam
            {| pixelFormat := NV12; size_width := width; size_height := height;
               stride := stride (generateConfiguration cam); bufferCount := 1 |}))
  + 1 < 2 ^ 32 ->
  (Z.to_nat
     (bufferCount
        (snd (validate cam
                {| pixelFormat := NV12; size_width := width; size_height := height;
                   stride := stride (generateConfiguration cam); bufferCount := 1 |})))
   < fuel)%nat ->
  is_Some (CameraHandler_init cam fuel this width height).
Proof.
  intros Hfits Hfuel. unfold CameraHandler_init.
  destruct (negb (manager_start cam =? 0)); [done|].
  destruct (bool_decide (cameras cam = [])); [done|].
  destruct (negb (manager_get cam)); [done|].
  destruct (negb (acquire cam =? 0)); [done|].
  destruct (validate cam _) as [status config]. simpl in Hfits, Hfuel.
  assert (forall requests,
             create_requests cam (bufferCount config) fuel 0 requests <> LoopOutOfFuel)
    as Hloop.
  { intros requests. apply create_requests_terminates; [done|lia|].
    by rewrite Z.sub_0_r. }
  destruct status; try done.
  all: destruct (negb (configure cam =? 0)); [done|].
  all: destruct (allocate cam <? 0); [done|].
  all: cbn [requests_ stream_ frame_callback_].
  all: specialize (Hloop (requests_ this)).
  all: by destruct (create_requests cam (bufferCount config) fuel 0 (requests_ this)).
Qed.

Lemma CameraHandler_init_terminates_witness :
  is_Some (CameraHandler_init add_buffer_failing_camera 5 (CameraHandler_new None) 640 480).
Proof.
  apply (CameraHandler_init_terminates add_buffer_failing_camera 5
           (CameraHandler_new None) 640 480).
  - vm_compute. reflexivity.
  - vm_compute. lia.
Defined.

Lemma numbered_buffers (l : list FrameBuffer) :
  buffer <$> imap (fun j b => {| cookie := Z.of_nat (0 + j); buffer := b |}) l = l.
Proof.
  rewrite fmap_imap. induction l as [|x l IH] using rev_ind; [done|].
  by rewrite imap_app, IH.
Qed.

Lemma numbered_cookies (l : list FrameBuffer) :
  cookie <$> imap (fun j b => {| cookie := Z.of_nat (0 + j); buffer := b |}) l
  = Z.of_nat <$> seq 0 (length l).
Proof.
  rewrite fmap_imap. induction l as [|x l IH] using rev_ind; [done|].
  rewrite imap_app, IH, length_app, seq_app, fmap_app. simpl.
  by rewrite Nat.add_0_r.
Qed.

Lemma init_requests_numbered (cam : CameraStack) (fuel : nat)
    (callback : option (CameraFrame -> CallResult)) (width height : Z)
    (c : CameraInit) :
  bufferCount
    (snd (validate cam
            {| pixelFormat := NV12; size_width := width; size_height := height;
               stride := stride (generateConfiguration cam); bufferCount := 1 |}))
  + 1 < 2 ^ 32 ->
  CameraHandler_init cam fuel (CameraHandler_new callback) width height
  = Some (Returns c) ->
  exists k,
    bound_buffers (cam_this c) = take k (every_other (buffers cam))
    /\ cookie <$> requests_ (cam_this c)
       = Z.of_nat <$> seq 0 (length (requests_ (cam_this c)))
    /\ (length (requests_ (cam_this c)) <= Nat.div2 (S (length (buffers cam))))%nat.
Proof.
  intros Hfits Hrun.
  assert (forall l : list Request, l = [] ->
            exists k,
              buffer <$> l = take k (every_other (buffers cam))
              /\ cookie <$> l = Z.of_nat <$> seq 0 (length l)
              /\ (length l <= Nat.div2 (S (length (buffers cam))))%nat) as Hnone.
  { intros l ->. exists 0%nat. rewrite take_0. simpl. repeat split; lia. }
  assert (forall k,
            let l := imap (fun j b => {| cookie := Z.of_nat (0 + j); buffer := b |})
                          (take k (every_other (buffers cam))) in
            exists k',
              buffer <$> l = take k' (every_other (buffers cam))
              /\ cookie <$> l = Z.of_nat <$> seq 0 (length l)
              /\ (length l <= Nat.div2 (S (length (buffers cam))))%nat) as Hsome.
  { intros k l. exists k. unfold l.
    rewrite numbered_buffers, numbered_cookies, length_imap.
    split; [done|]. split; [done|].
    rewrite length_take, every_other_length. lia. }
  unfold CameraHandler_init, cam_fail in Hrun. unfold bound_buffers.
  destruct (negb (manager_start cam =? 0)); [simplify_eq; by apply Hnone|].
  destruct (bool_decide (cameras cam = [])); [simplify_eq; by apply Hnone|].
  destruct (negb (manager_get cam)); [simplify_eq; by apply Hnone|].
  destruct (negb (acquire cam =? 0)); [simplify_eq; by apply Hnone|].
  destruct (validate cam _) as [status config]. simpl in Hfits.
  assert (forall result,
            create_requests cam (bufferCount config) fuel 0 [] = LoopDone result
            \/ (exists message,
                  create_requests cam (bufferCount config) fuel 0 [] = LoopFailed result message) ->
            exists k,
              result
              = imap (fun j b => {| cookie := Z.of_nat (0 + j); buffer := b |})
                     (take k (every_other (buffers cam)))) as Hloop.
  { intros result Hresult.
    destruct (create_requests_prefix cam (bufferCount config) Hfits fuel 0 [] result Hresult)
      as [k ->].
    exists k. by rewrite drop_0. }
  destruct status; [| |simplify_eq; by apply Hnone].
  all: destruct (negb (configure cam =? 0)); [simplify_eq; by apply Hnone|].
  all: destruct (allocate cam <? 0); [simplify_eq; by apply Hnone|].
  all: cbn [requests_ stream_ frame_callback_ CameraHandler_new] in Hrun.
  all: destruct (create_requests cam (bufferCount config) fuel 0 []) as [res|res msg|f|]
         eqn:Hcreate; simplify_eq; simpl.
  all: destruct (Hloop res) as [k ->]; [by eauto|apply Hsome].
Qed.

(** X14: However init ends, the requests the handler holds are numbered
    0, 1, 2, ... and bound, in that order, to the first buffers of even
    index: no buffer of odd index is ever bound, and the handler never
    holds more than (n + 1) / 2 requests for n buffers. *)
Theorem init_binds_a_prefix_of_even_buffers (cam : CameraStack) (fuel : nat)
    (callback : option (CameraFrame -> CallResult)) (width height : Z)
    (c : CameraInit) :
  bufferCount
    (snd (validate cam
            {| pixelFormat := NV12; size_width := width; size_height := height;
               stride := stride (generateConfiguration cam); bufferCount := 1 |}))
  + 1 < 2 ^ 32 ->
  CameraHandler_init cam fuel (CameraHandler_new callback) width height
  = Some (Returns c) ->
  exists k,
    bound_buffers (cam_this c) = take k (every_other (buffers cam))
    /\ cookie <$> requests_ (cam_this c)
       = Z.of_nat <$> seq 0 (length (requests_ (cam_this c)))
    /\ (length (requests_ (cam_this c)) <= Nat.div2 (S (length (buffers cam))))%nat.
Proof.
  intros Hfits Hrun.
  destruct (init_requests_numbered cam fuel callback width height c Hfits Hrun)
    as (k & Hbound & Hcookies & Hlen).
  exists k. by repeat split.
Qed.

Lemma init_binds_a_prefix_of_even_buffers_witness :
  exists k,
    bound_buffers
      {| frame_callback_ := None;
         stream_ := Some (sample_stream NV12);
         requests_ := [{| cookie := 0; buffer := nv12_buffer 20 |}] |}
    = take k (every_other (buffers add_buffer_failing_camera))
    /\ cookie <$> [{| cookie := 0; buffer := nv12_buffer 20 |}]
       = Z.of_nat <$> seq 0 1
    /\ (1 <= Nat.div2 (S (length (buffers add_buffer_failing_camera))))%nat.
Proof.
  apply (init_binds_a_prefix_of_even_buffers add_buffer_failing_camera 5 None 640 480
           {| cam_ok := false;
              cam_this :=
                {| frame_callback_ := None;
                   stream_ := Some (sample_stream NV12);
                   requests_ := [{| cookie := 0; buffer := nv12_buffer 20 |}] |};
              cam_events :=
                [ConnectRequestCompleted; InitCerr "Failed to add buffer to request."] |}).
  - vm_compute. reflexivity.
  - reflexivity.
Defined.

(** X15: What a failed init has undone when it returns. A failure before
    the request loop stops the camera manager as its last action (except
    when the manager itself did not start) and leaves the request list
    untouched. A failure inside the request loop (createRequest or
    addBuffer) undoes nothing: the completion signal stays connected,
    the stream stays configured, and neither the camera is released nor
    the manager stopped. *)
Theorem init_failure_cleanup (cam : CameraStack) (fuel : nat) (this : CameraHandler)
    (width height : Z) (c : CameraInit) :
  CameraHandler_init cam fuel this width height = Some (Returns c) ->
  cam_ok c = false ->
  (manager_start cam <> 0
   /\ cam_events c = [InitCerr "Failed to start camera manager."]
   /\ cam_this c = this)
  \/ (last (cam_events c) = Some ManagerStop
      /\ existsb is_connect (cam_events c) = false
      /\ requests_ (cam_this c) = requests_ this)
  \/ (exists message,
        cam_events c = [ConnectRequestCompleted; InitCerr message]
        /\ is_Some (stream_ (cam_this c))
        /\ existsb is_release (cam_events c) = false
        /\ existsb is_manager_stop (cam_events c) = false).
Proof.
  unfold CameraHandler_init, cam_fail. intros Hrun Hok.
  destruct (Z.eqb_spec (manager_start cam) 0) as [_|Hstart]; simpl in Hrun.
  2:{ simplify_eq. by left. }
  destruct (bool_decide (cameras cam = [])); [simplify_eq; right; left; done|].
  destruct (negb (manager_get cam)); [simplify_eq; right; left; done|].
  destruct (negb (acquire cam =? 0)); [simplify_eq; right; left; done|].
  destruct (validate cam _) as [status config].
  destruct status; [| |simplify_eq; right; left; done].
  all: destruct (negb (configure cam =? 0)); [simplify_eq; right; left; done|].
  all: destruct (allocate cam <? 0); [simplify_eq; right; left; done|].
  all: cbn [requests_ stream_ frame_callback_] in Hrun.
  all: destruct (create_requests cam (bufferCount config) fuel 0 (requests_ this))
         as [res|res msg|f|]; simplify_eq; simpl in *; try done.
  all: right; right; exists msg; by eauto.
Qed.

Lemma init_failure_cleanup_witness :
  (manager_start add_buffer_failing_camera <> 0
   /\ [ConnectRequestCompleted; InitCerr "Failed to add buffer to request."]
      = [InitCerr "Failed to start camera manager."]
   /\ {| frame_callback_ := None;
         stream_ := Some (sample_stream NV12);
         requests_ := [{| cookie := 0; buffer := nv12_buffer 20 |}] |}
      = CameraHandler_new None)
  \/ (last [ConnectRequestCompleted; InitCerr "Failed to add buffer to request."]
      = Some ManagerStop
      /\ existsb is_connect
           [ConnectRequestCompleted; InitCerr "Failed to add buffer to request."] = false
      /\ [{| cookie := 0; buffer := nv12_buffer 20 |}] = requests_ (CameraHandler_new None))
  \/ (exists message,
        [ConnectRequestCompleted; InitCerr "Failed to add buffer to request."]
        = [ConnectRequestCompleted; InitCerr message]
        /\ is_Some (Some (sample_stream NV12))
        /\ existsb is_release
             [ConnectRequestCompleted; InitCerr "Failed to add buffer to request."] = false
        /\ existsb is_manager_stop
             [ConnectRequestCompleted; InitCerr "Failed to add buffer to request."] = false).
Proof.
  apply (init_failure_cleanup add_buffer_failing_camera 5 (CameraHandler_new None) 640 480
           {| cam_ok := false;
              cam_this :=
                {| frame_callback_ := None;
                   stream_ := Some (sample_stream NV12);
                   requests_ := [{| cookie := 0; buffer := nv12_buffer 20 |}] |};
              cam_events :=
                [ConnectRequestCompleted; InitCerr "Failed to add buffer to request."] |}).
  - reflexivity.
  - reflexivity.
Defined.

(** ** CameraHandler::start *)

Lemma queue_requests_spec (control : StreamControl) (requests : list Request) :
  (fst (queue_requests control requests) = true
   <-> Forall (fun req => queueRequest control (cookie req) = 0) requests)
  /\ (fst (queue_requests control requests) = true ->
      snd (queue_requests control requests) = (fun req => QueueRequest (cookie req)) <$> requests)
  /\ exists k, queued (snd (queue_requests control requests)) = cookie <$> take k requests.
Proof.
  induction requests as [|req rest (IHok & IHev & k & IHk)]; simpl.
  - split; [done|]. split; [done|]. by exists 0%nat.
  - destruct (Z.eqb_spec (queueRequest control (cookie req)) 0) as [Hreq|Hreq]; simpl.
    + destruct (queue_requests control rest) as [ok events]. simpl in *.
      split; [|split].
      * rewrite IHok. split; [by constructor|by inversion 1].
      * intros Hok. by rewrite IHev.
      * exists (S k). simpl. by rewrite IHk.
    + split; [|split].
      * split; [done|]. inversion 1. done.
      * done.
      * by exists 1%nat.
Qed.

(** X16: start succeeds exactly when the camera starts and every
    queueRequest succeeds, and then it has queued each request of the
    handler once, in the order of the request list. *)
Theorem start_succeeds_iff (control : StreamControl) (this : CameraHandler) :
  fst (CameraHandler_start control this) = true
  <-> camera_start control = 0
      /\ Forall (fun req => queueRequest control (cookie req) = 0) (requests_ this)
      /\ snd (CameraHandler_start control this)
         = CameraStart :: ((fun req => QueueRequest (cookie req)) <$> requests_ this).
Proof.
  unfold CameraHandler_start.
  destruct (queue_requests_spec control (requests_ this)) as (Hok & Hev & _).
  destruct (Z.eqb_spec (camera_start control) 0) as [Hstart|Hstart]; simpl.
  - destruct (queue_requests control (requests_ this)) as [ok events]. simpl in *.
    split.
    + intros ->. split; [done|]. split; [by apply Hok|]. by rewrite Hev.
    + intros (_ & Hall & _). by apply Hok.
  - split; [done|]. by intros [? _].
Qed.

Lemma queue_requests_first_refusal (control : StreamControl)
    (before after : list Request) (req : Request) :
  Forall (fun r => queueRequest control (cookie r) = 0) before ->
  queueRequest control (cookie req) <> 0 ->
  queue_requests control (before ++ req :: after)
  = (false,
     ((fun r => QueueRequest (cookie r)) <$> before)
     ++ [QueueRequest (cookie req);
         StartCerr "[CameraHandler] Failed to queue request after camera start."]).
Proof.
  intros Hbefore Hreq.
  induction Hbefore as [|r before Hr _ IH]; simpl.
  - by destruct (Z.eqb_spec (queueRequest control (cookie req)) 0).
  - rewrite Hr. simpl. by rewrite IH.
Qed.

Lemma queued_app (events1 events2 : list StartEvent) :
  queued (events1 ++ events2) = queued events1 ++ queued events2.
Proof. unfold queued. apply omap_app. Qed.

Lemma queued_camera_start (events : list StartEvent) :
  queued (CameraStart :: events) = queued events.
Proof. reflexivity. Qed.

Lemma queued_requests (requests : list Request) :
  queued ((fun r => QueueRequest (cookie r)) <$> requests) = cookie <$> requests.
Proof.
  unfold queued. induction requests as [|req rest IH]; [done|].
  rewrite !fmap_cons. cbn [omap list_omap]. f_equal. exact IH.
Qed.

(** X17: Which requests start has queued when it returns: none when
    the camera did not start; when some queueRequest is refused, exactly
    the requests up to and including the first refused one, in order,
    and start returns false; when none is refused, all of them, in
    order, and start returns true. *)
Theorem start_queues_up_to_first_refusal (control : StreamControl)
    (this : CameraHandler) :
  (camera_start control <> 0 ->
   fst (CameraHandler_start control this) = false
   /\ queued (snd (CameraHandler_start control this)) = [])
  /\ (camera_start control = 0 ->
      forall before req after,
        requests_ this = before ++ req :: after ->
        Forall (fun r => queueRequest control (cookie r) = 0) before ->
        queueRequest control (cookie req) <> 0 ->
        fst (CameraHandler_start control this) = false
        /\ queued (snd (CameraHandler_start control this)) = cookie <$> (before ++ [req]))
  /\ (camera_start control = 0 ->
      Forall (fun r => queueRequest control (cookie r) = 0) (requests_ this) ->
      fst (CameraHandler_start control this) = true
      /\ queued (snd (CameraHandler_start control this)) = cookie <$> requests_ this).
Proof.
  unfold CameraHandler_start. split; [|split].
  - intros Hstart.
    by destruct (Z.eqb_spec (camera_start control) 0).
  - intros Hstart before req after Hrequests Hbefore Hreq.
    rewrite Hstart, Hrequests. cbn [negb Z.eqb].
    rewrite (queue_requests_first_refusal control before after req Hbefore Hreq).
    split; [done|]. cbn [snd].
    rewrite queued_camera_start, queued_app, queued_requests, fmap_app. done.
  - intros Hstart Hall. rewrite Hstart. cbn [negb Z.eqb].
    destruct (queue_requests_spec control (requests_ this)) as (Hok & Hevents & _).
    destruct (queue_requests control (requests_ this)) as [ok events].
    cbn [fst snd] in *.
    assert (ok = true) as -> by (by apply Hok).
    split; [done|]. rewrite Hevents by done.
    by rewrite queued_camera_start, queued_requests.
Qed.

Lemma start_queues_up_to_first_refusal_witness :
  fst (CameraHandler_start
         {| camera_start := 0; queueRequest := fun r => if r =? 1 then -16 else 0 |}
         {| frame_callback_ := None; stream_ := Some (sample_stream NV12);
            requests_ := [{| cookie := 0; buffer := nv12_buffer 20 |};
                          {| cookie := 1; buffer := nv12_buffer 22 |};
                          {| cookie := 2; buffer := nv12_buffer 24 |}] |}) = false
  /\ queued (snd (CameraHandler_start
         {| camera_start := 0; queueRequest := fun r => if r =? 1 then -16 else 0 |}
         {| frame_callback_ := None; stream_ := Some (sample_stream NV12);
            requests_ := [{| cookie := 0; buffer := nv12_buffer 20 |};
                          {| cookie := 1; buffer := nv12_buffer 22 |};
                          {| cookie := 2; buffer := nv12_buffer 24 |}] |}))
     = cookie <$> ([{| cookie := 0; buffer := nv12_buffer 20 |}]
                   ++ [{| cookie := 1; buffer := nv12_buffer 22 |}]).
Proof.
  apply (proj1 (proj2 (start_queues_up_to_first_refusal
           {| camera_start := 0; queueRequest := fun r => if r =? 1 then -16 else 0 |}
           {| frame_callback_ := None; stream_ := Some (sample_stream NV12);
              requests_ := [{| cookie := 0; buffer := nv12_buffer 20 |};
                            {| cookie := 1; buffer := nv12_buffer 22 |};
                            {| cookie := 2; buffer := nv12_buffer 24 |}] |}))
           eq_refl
           [{| cookie := 0; buffer := nv12_buffer 20 |}]
           {| cookie := 1; buffer := nv12_buffer 22 |}
           [{| cookie := 2; buffer := nv12_buffer 24 |}]).
  - reflexivity.
  - repeat constructor.
  - simpl. discriminate.
Defined.

Lemma queued_all (requests : list Request) :
  queued (CameraStart :: ((fun req => QueueRequest (cookie req)) <$> requests))
  = cookie <$> requests.
Proof.
  unfold queued. change (omap ?f (CameraStart :: ?l)) with (omap f l).
  induction requests as [|req rest IH]; [done|].
  rewrite !fmap_cons. cbn [omap list_omap]. f_equal. exact IH.
Qed.

(** X18: init then start on a camera stack where every call succeeds: of n
    allocated buffers, (n + 1) / 2 requests are in flight, numbered from
    0, and they are the requests of the buffers of even index. *)
Theorem init_then_start_queues_half (cam : CameraStack) (control : StreamControl)
    (callback : option (CameraFrame -> CallResult)) (width height : Z)
    (status : ConfigStatus) (config : StreamConfiguration) :
  manager_start cam = 0 ->
  cameras cam <> [] ->
  manager_get cam = true ->
  acquire cam = 0 ->
  validate cam {| pixelFormat := NV12; size_width := width; size_height := height;
                  stride := stride (generateConfiguration cam); bufferCount := 1 |}
  = (status, config) ->
  status <> Invalid ->
  configure cam = 0 ->
  0 <= allocate cam ->
  bufferCount config = Z.of_nat (length (buffers cam)) ->
  Z.of_nat (length (buffers cam)) + 1 < 2 ^ 32 ->
  (forall k, createRequest cam k = true) ->
  (forall k b, addBuffer cam k b = 0) ->
  camera_start control = 0 ->
  (forall r, queueRequest control r = 0) ->
  exists this,
    CameraHandler_init cam (S (length (buffers cam))) (CameraHandler_new callback) width height
    = Some (Returns {| cam_ok := true; cam_this := this;
                       cam_events := [ConnectRequestCompleted] |})
    /\ fst (CameraHandler_start control this) = true
    /\ queued (snd (CameraHandler_start control this))
       = Z.of_nat <$> seq 0 (Nat.div2 (S (length (buffers cam))))
    /\ bound_buffers this = every_other (buffers cam).
Proof.
  intros Hstart Hcams Hget Hacq Hval Hstatus Hconf Halloc Hcount Hfits Hcreate Hadd
         Hcamera Hqueue.
  destruct (init_binds_every_other_buffer cam callback width height status config
              Hstart Hcams Hget Hacq Hval Hstatus Hconf Halloc Hcount Hfits Hcreate Hadd)
    as (this & Hinit & _ & Hbound & Hlen).
  exists this. split; [done|].
  assert (CameraHandler_start control this
          = (true, CameraStart :: ((fun req => QueueRequest (cookie req)) <$> requests_ this)))
    as ->.
  { unfold CameraHandler_start. rewrite Hcamera. simpl.
    destruct (queue_requests_spec control (requests_ this)) as (Hiff & Hev & _).
    destruct (queue_requests control (requests_ this)) as [ok events]. simpl in *.
    assert (ok = true) as ->
      by (apply Hiff; apply Forall_forall; intros req _; apply Hqueue).
    by rewrite Hev. }
  split; [done|]. split; [|done]. cbn [snd].
  pose proof (init_requests_numbered cam (S (length (buffers cam)))
                callback width height
                {| cam_ok := true; cam_this := this;
                   cam_events := [ConnectRequestCompleted] |}) as Hprefix.
  rewrite Hval in Hprefix. simpl in Hprefix. rewrite Hcount in Hprefix.
  destruct (Hprefix Hfits Hinit) as (k & _ & Hcookies & _).
  rewrite <- Hlen, <- Hcookies.
  apply queued_all.
Qed.

Lemma start_succeeds_iff_witness :
  camera_start sample_control = 0
  /\ Forall (fun req => queueRequest sample_control (cookie req) = 0)
            (requests_ {| frame_callback_ := None; stream_ := Some (sample_stream NV12);
                          requests_ := [sample_request] |})
  /\ snd (CameraHandler_start sample_control
            {| frame_callback_ := None; stream_ := Some (sample_stream NV12);
               requests_ := [sample_request] |})
     = CameraStart
       :: ((fun req => QueueRequest (cookie req))
             <$> requests_ {| frame_callback_ := None; stream_ := Some (sample_stream NV12);
                              requests_ := [sample_request] |}).
Proof.
  apply (proj1 (start_succeeds_iff sample_control
                  {| frame_callback_ := None; stream_ := Some (sample_stream NV12);
                     requests_ := [sample_request] |})).
  reflexivity.
Defined.

Lemma init_then_start_queues_half_witness :
  exists this,
    CameraHandler_init four_buffer_camera (S (length (buffers four_buffer_camera)))
      (CameraHandler_new None) 640 480
    = Some (Returns {| cam_ok := true; cam_this := this;
                       cam_events := [ConnectRequestCompleted] |})
    /\ fst (CameraHandler_start sample_control this) = true
    /\ queued (snd (CameraHandler_start sample_control this))
       = Z.of_nat <$> seq 0 (Nat.div2 (S (length (buffers four_buffer_camera))))
    /\ bound_buffers this = every_other (buffers four_buffer_camera).
Proof.
  apply (init_then_start_queues_half four_buffer_camera sample_control None 640 480
           Adjusted (sample_stream NV12)).
  - reflexivity.
  - simpl. discriminate.
  - reflexivity.
  - reflexivity.
  - reflexivity.
  - discriminate.
  - reflexivity.
  - simpl. lia.
  - reflexivity.
  - vm_compute. reflexivity.
  - intros k. reflexivity.
  - intros k b. reflexivity.
  - reflexivity.
  - intros r. reflexivity.
Defined.

(** ** CameraHandler::requestComplete: frames and mappings *)

(** Every trace the callback can leave. *)
Lemma requestComplete_traces (this : CameraHandler) (os : Platform)
    (status : RequestStatus) (request : Request) :
  let len := mapping_length (buffer request) in
  let fd := Plane.fd (plane0 (buffer request)) in
  let requeue := [EReuse (cookie request); EQueue (cookie request)] in
  (status <> RequestComplete
   /\ requestComplete this os status request
      = {| trace := ECerr "Request failed" :: requeue; exit := Returned |})
  \/ (status = RequestComplete /\ stream_ this = None
      /\ requestComplete this os status request
         = {| trace := []; exit := Crashed NullDereference |})
  \/ (status = RequestComplete /\ is_Some (stream_ this) /\ mmap os len fd = None
      /\ requestComplete this os status request
         = {| trace := EMmap len fd None :: ECerr "Failed to mmap buffer!" :: requeue;
              exit := Returned |})
  \/ (exists configuration addr bytes,
        status = RequestComplete /\ stream_ this = Some configuration
        /\ mmap os len fd = Some (addr, bytes)
        /\ ((exists message,
               (pixelFormat configuration = MJPEG
                /\ Mat_empty (imdecode os (take (Z.to_nat len) bytes)) = true
                \/ exists fourcc, pixelFormat configuration = OtherFormat fourcc)
               /\ requestComplete this os status request
                  = {| trace := EMmap len fd (Some addr) :: ECerr message
                                :: EMunmap addr len :: requeue;
                       exit := Returned |})
            \/ (exists bgr_image,
                  (pixelFormat configuration = NV12
                   /\ bgr_image
                      = cvtColor_NV12 os
                          (size_height configuration + size_height configuration `quot` 2)
                          (size_width configuration) (stride configuration) bytes
                   \/ pixelFormat configuration = MJPEG
                      /\ bgr_image = imdecode os (take (Z.to_nat len) bytes)
                      /\ Mat_empty bgr_image = false)
                  /\ ((frame_callback_ this = None
                       /\ requestComplete this os status request
                          = {| trace := EMmap len fd (Some addr)
                                        :: EMunmap addr len :: requeue;
                               exit := Returned |})
                      \/ (exists callback,
                            frame_callback_ this = Some callback
                            /\ callback (frame_of bgr_image) = CallReturns
                            /\ requestComplete this os status request
                               = {| trace := EMmap len fd (Some addr)
                                             :: EFrame (frame_of bgr_image)
                                             :: EMunmap addr len :: requeue;
                                    exit := Returned |})
                      \/ (exists callback,
                            frame_callback_ this = Some callback
                            /\ callback (frame_of bgr_image) = CallThrows
                            /\ requestComplete this os status request
                               = {| trace := [EMmap len fd (Some addr);
                                              EFrame (frame_of bgr_image)];
                                    exit := Propagated |}))))).
Proof.
  intros len fd requeue. unfold requestComplete.
  destruct (decide (status = RequestComplete)) as [Hstatus|Hstatus]; [|by left].
  right.
  destruct (stream_ this) as [configuration|]; [|by left].
  right. fold (mapping_length (buffer request)). fold len. fold fd.
  destruct (mmap os len fd) as [[addr bytes]|]; [|by left; eauto].
  right. exists configuration, addr, bytes. do 3 (split; [done|]).
  assert (forall bgr_image,
    (frame_callback_ this = None
     /\ pass_frame this bgr_image [EMmap len fd (Some addr)] (Some addr) len request
        = {| trace := EMmap len fd (Some addr) :: EMunmap addr len :: requeue;
             exit := Returned |})
    \/ (exists callback,
          frame_callback_ this = Some callback
          /\ callback (frame_of bgr_image) = CallReturns
          /\ pass_frame this bgr_image [EMmap len fd (Some addr)] (Some addr) len request
             = {| trace := EMmap len fd (Some addr) :: EFrame (frame_of bgr_image)
                           :: EMunmap addr len :: requeue;
                  exit := Returned |})
    \/ (exists callback,
          frame_callback_ this = Some callback
          /\ callback (frame_of bgr_image) = CallThrows
          /\ pass_frame this bgr_image [EMmap len fd (Some addr)] (Some addr) len request
             = {| trace := [EMmap len fd (Some addr); EFrame (frame_of bgr_image)];
                  exit := Propagated |})) as Hpass.
  { intros bgr_image. unfold pass_frame. fold (frame_of bgr_image).
    destruct (frame_callback_ this) as [callback|]; [|by left].
    right. destruct (callback (frame_of bgr_image)) eqn:Hcall; [left|right];
      by exists callback. }
  destruct (pixelFormat configuration) as [| |fourcc].
  - right. eexists. split; [left; by split|]. apply Hpass.
  - destruct (Mat_empty _) eqn:Hempty.
    + left. eexists. split; [left; by split|]. reflexivity.
    + right. eexists. split; [right; by split|]. apply Hpass.
  - left. eexists. split; [right; by exists fourcc|]. reflexivity.
Qed.

(** X19: A frame reaches the consumer exactly when the request completed,
    the stream is configured, the mapping succeeded, a consumer is
    registered, and the format is NV12 or an MJPEG payload that decodes
    to a non-empty image; at most one frame per completion. An
    unsupported format or a failed decode never produces one. *)
Theorem frame_delivered_iff (this : CameraHandler) (os : Platform)
    (status : RequestStatus) (request : Request) :
  (count is_frame (trace (requestComplete this os status request)) <= 1)%nat
  /\ (count is_frame (trace (requestComplete this os status request)) = 1%nat
      <-> status = RequestComplete
          /\ is_Some (frame_callback_ this)
          /\ exists configuration addr bytes,
               stream_ this = Some configuration
               /\ mmap os (mapping_length (buffer request))
                       (Plane.fd (plane0 (buffer request))) = Some (addr, bytes)
               /\ (pixelFormat configuration = NV12
                   \/ pixelFormat configuration = MJPEG
                      /\ Mat_empty
                           (imdecode os
                              (take (Z.to_nat (mapping_length (buffer request))) bytes))
                         = false)).
Proof.
  destruct (requestComplete_traces this os status request)
    as [(Hstatus & ->)
       |[(Hstatus & Hstream & ->)
        |[(Hstatus & Hstream & Hmmap & ->)
         |(configuration & addr & bytes & Hstatus & Hstream & Hmmap &
           [(message & Hformat & ->)
           |(bgr_image & Hformat &
             [(Hcb & ->)|[(callback & Hcb & Hcall & ->)|(callback & Hcb & Hcall & ->)]])])]]].
  - split; [cbn; lia|]. split; [done|]. by intros [? _].
  - split; [cbn; lia|]. split; [done|].
    intros (_ & _ & ? & ? & ? & ? & _). congruence.
  - split; [cbn; lia|]. split; [done|].
    intros (_ & _ & ? & ? & ? & _ & ? & _). congruence.
  - split; [cbn; lia|]. split; [done|].
    intros (_ & _ & cfg & a & b & Hcfg & Hm & Hfmt). simplify_eq.
    destruct Hformat as [[Hmjpeg Hempty]|[fourcc Hother]], Hfmt as [Hnv|[Hmj Hne]];
      congruence.
  - split; [cbn; lia|]. split; [done|].
    intros (_ & [? Hsome] & _). congruence.
  - split; [cbn; lia|]. split; [|done]. intros _.
    split; [done|]. split; [by eauto|].
    exists configuration, addr, bytes. split; [done|]. split; [done|].
    destruct Hformat as [[Hnv _]|(Hmj & -> & Hne)]; by eauto.
  - split; [cbn; lia|]. split; [|done]. intros _.
    split; [done|]. split; [by eauto|].
    exists configuration, addr, bytes. split; [done|]. split; [done|].
    destruct Hformat as [[Hnv _]|(Hmj & -> & Hne)]; by eauto.
Qed.

Lemma frame_delivered_iff_witness :
  RequestComplete = RequestComplete
  /\ is_Some (frame_callback_ (streaming MJPEG (fun _ => CallReturns)))
  /\ exists configuration addr bytes,
       stream_ (streaming MJPEG (fun _ => CallReturns)) = Some configuration
       /\ mmap (mapping_platform sample_mat) (mapping_length (buffer sample_request))
               (Plane.fd (plane0 (buffer sample_request))) = Some (addr, bytes)
       /\ (pixelFormat configuration = NV12
           \/ pixelFormat configuration = MJPEG
              /\ Mat_empty
                   (imdecode (mapping_platform sample_mat)
                      (take (Z.to_nat (mapping_length (buffer sample_request))) bytes))
                 = false).
Proof.
  apply (proj1 (proj2 (frame_delivered_iff (streaming MJPEG (fun _ => CallReturns))
                         (mapping_platform sample_mat) RequestComplete sample_request))).
  reflexivity.
Defined.

(** X20: The consumer runs while the buffer is mapped: a delivered frame is
    the second event of the trace, right after the successful mmap of
    the whole buffer, and the munmap of that mapping, when the consumer
    returns, comes after it. *)
Theorem frame_delivered_while_mapped (this : CameraHandler) (os : Platform)
    (status : RequestStatus) (request : Request) (frame : CameraFrame) :
  EFrame frame ∈ trace (requestComplete this os status request) ->
  exists addr,
    trace (requestComplete this os status request)
    = EMmap (mapping_length (buffer request)) (Plane.fd (plane0 (buffer request)))
            (Some addr)
      :: EFrame frame
      :: match exit (requestComplete this os status request) with
         | Returned =>
             [EMunmap addr (mapping_length (buffer request));
              EReuse (cookie request); EQueue (cookie request)]
         | _ => []
         end.
Proof.
  destruct (requestComplete_traces this os status request)
    as [(Hstatus & ->)
       |[(Hstatus & Hstream & ->)
        |[(Hstatus & Hstream & Hmmap & ->)
         |(configuration & addr & bytes & Hstatus & Hstream & Hmmap &
           [(message & Hformat & ->)
           |(bgr_image & Hformat &
             [(Hcb & ->)|[(callback & Hcb & Hcall & ->)|(callback & Hcb & Hcall & ->)]])])]]];
    simpl; intros Hin.
  all: repeat (apply elem_of_cons in Hin as [Hin|Hin]; [try discriminate|]).
  all: try (by apply elem_of_nil in Hin).
  all: simplify_eq; by exists addr.
Qed.

Lemma frame_delivered_while_mapped_witness :
  exists addr,
    trace (requestComplete (streaming NV12 (fun _ => CallReturns))
             (mapping_platform sample_mat) RequestComplete sample_request)
    = EMmap (mapping_length (buffer sample_request))
            (Plane.fd (plane0 (buffer sample_request))) (Some addr)
      :: EFrame (frame_of sample_mat)
      :: match exit (requestComplete (streaming NV12 (fun _ => CallReturns))
                       (mapping_platform sample_mat) RequestComplete sample_request) with
         | Returned =>
             [EMunmap addr (mapping_length (buffer sample_request));
              EReuse (cookie sample_request); EQueue (cookie sample_request)]
         | _ => []
         end.
Proof.
  apply (frame_delivered_while_mapped (streaming NV12 (fun _ => CallReturns))
           (mapping_platform sample_mat) RequestComplete sample_request
           (frame_of sample_mat)).
  vm_compute. apply list_elem_of_further. apply list_elem_of_here.
Defined.

(** X21: When the consumer throws on the frame it is handed, the
    exception leaves the callback and the code after the label [bailout]
    is skipped: the buffer stays mapped (no munmap) and the request is
    neither reused nor queued again. *)
Theorem throwing_consumer_skips_cleanup (this : CameraHandler) (os : Platform)
    (status : RequestStatus) (request : Request)
    (callback : CameraFrame -> CallResult) (frame : CameraFrame) :
  frame_callback_ this = Some callback ->
  EFrame frame ∈ trace (requestComplete this os status request) ->
  callback frame = CallThrows ->
  exit (requestComplete this os status request) = Propagated
  /\ live_mappings (trace (requestComplete this os status request)) [] <> Some []
  /\ count is_munmap (trace (requestComplete this os status request)) = 0%nat
  /\ count is_reuse (trace (requestComplete this os status request)) = 0%nat
  /\ count is_queue (trace (requestComplete this os status request)) = 0%nat.
Proof.
  intros Hcallback Hin Hthrows.
  destruct (requestComplete_traces this os status request)
    as [(Hstatus & Htrace)
       |[(Hstatus & Hstream & Htrace)
        |[(Hstatus & Hstream & Hmmap & Htrace)
         |(configuration & addr & bytes & Hstatus & Hstream & Hmmap &
           [(message & Hformat & Htrace)
           |(bgr_image & Hformat &
             [(Hcb & Htrace)
             |[(callback' & Hcb & Hcall & Htrace)|(callback' & Hcb & Hcall & Htrace)]])])]]];
    rewrite Htrace in *; simpl in Hin.
  all: repeat (apply elem_of_cons in Hin as [Hin|Hin]; [try discriminate|]).
  all: try (by apply elem_of_nil in Hin).
  - simplify_eq. congruence.
  - by repeat split.
Qed.

Lemma throwing_consumer_skips_cleanup_witness :
  exit (requestComplete (streaming NV12 (fun _ => CallThrows))
          (mapping_platform sample_mat) RequestComplete sample_request) = Propagated
  /\ live_mappings
       (trace (requestComplete (streaming NV12 (fun _ => CallThrows))
                 (mapping_platform sample_mat) RequestComplete sample_request)) []
     <> Some []
  /\ count is_munmap
       (trace (requestComplete (streaming NV12 (fun _ => CallThrows))
                 (mapping_platform sample_mat) RequestComplete sample_request)) = 0%nat
  /\ count is_reuse
       (trace (requestComplete (streaming NV12 (fun _ => CallThrows))
                 (mapping_platform sample_mat) RequestComplete sample_request)) = 0%nat
  /\ count is_queue
       (trace (requestComplete (streaming NV12 (fun _ => CallThrows))
                 (mapping_platform sample_mat) RequestComplete sample_request)) = 0%nat.
Proof.
  apply (throwing_consumer_skips_cleanup (streaming NV12 (fun _ => CallThrows))
           (mapping_platform sample_mat) RequestComplete sample_request
           (fun _ => CallThrows) (frame_of sample_mat)).
  - reflexivity.
  - vm_compute. apply list_elem_of_further. apply list_elem_of_here.
  - reflexivity.
Defined.

Lemma mapping_length_sum (planes : list Plane.t) (start : Z) :
  foldl (fun total plane => size_t (total + Plane.length plane)) (size_t start) planes
  = size_t (start + foldr Z.add 0 (Plane.length <$> planes)).
Proof.
  revert start. induction planes as [|plane rest IH]; intros start; simpl.
  - by rewrite Z.add_0_r.
  - assert (size_t (size_t start + Plane.length plane)
            = size_t (start + Plane.length plane)) as ->
      by (unfold size_t; apply Zplus_mod_idemp_l).
    rewrite IH. by rewrite Z.add_assoc.
Qed.

Lemma mapping_length_is_sum (b : FrameBuffer) :
  mapping_length b = (foldr Z.add 0 (Plane.length <$> planes b)) mod 2 ^ 64.
Proof.
  unfold mapping_length.
  change 0 with (size_t 0) at 1.
  by rewrite mapping_length_sum.
Qed.

(** X22: The mapping spans every plane: for a completed request on a
    configured stream, the callback starts with one mmap whose length is
    the sum of the lengths of all planes of the buffer (as a size_t), on
    the descriptor of plane 0. *)
Theorem mapping_spans_all_planes (this : CameraHandler) (os : Platform)
    (request : Request) :
  is_Some (stream_ this) ->
  exists mem rest,
    trace (requestComplete this os RequestComplete request)
    = EMmap ((foldr Z.add 0 (Plane.length <$> planes (buffer request))) mod 2 ^ 64)
            (Plane.fd (plane0 (buffer request))) mem
      :: rest.
Proof.
  intros [configuration Hconfiguration].
  rewrite <- mapping_length_is_sum.
  destruct (requestComplete_traces this os RequestComplete request)
    as [(Hstatus & _)
       |[(Hstatus & Hstream & _)
        |[(Hstatus & Hstream & Hmmap & ->)
         |(cfg & addr & bytes & Hstatus & Hstream & Hmmap &
           [(message & Hformat & ->)
           |(bgr_image & Hformat &
             [(Hcb & ->)|[(callback & Hcb & Hcall & ->)|(callback & Hcb & Hcall & ->)]])])]]];
    try done; try congruence; simpl; by eauto.
Qed.

Lemma mapping_spans_all_planes_witness :
  exists mem rest,
    trace (requestComplete (streaming NV12 (fun _ => CallReturns))
             (mapping_platform sample_mat) RequestComplete sample_request)
    = EMmap ((foldr Z.add 0 (Plane.length <$> planes (buffer sample_request))) mod 2 ^ 64)
            (Plane.fd (plane0 (buffer sample_request))) mem
      :: rest.
Proof.
  apply (mapping_spans_all_planes (streaming NV12 (fun _ => CallReturns))
           (mapping_platform sample_mat) sample_request).
  simpl. eexists. reflexivity.
Defined.

(** ** The completion callback: what holds when it returns, and when it does not *)







(** ** main.cpp: the reported class when nothing is above 0 *)

Lemma index_returns {A} (v : list A) (i : Z) (x : A) :
  index v i = Returns x -> v !! Z.to_nat i = Some x.
Proof.
  unfold index. destruct (i <? 0); [done|].
  destruct (v !! Z.to_nat i); by intros [= ->].
Qed.

(** When the printing loop gets through its label reads, it has
    selected what [select_loop] selects. *)
Lemma report_loop_selection (class_labels : list string) (detections : list Detection)
    (i argmax : Z) (max_confidence : float) (lines lines' : list (string * float))
    (argmax' : Z) (max_confidence' : float) :
  report_loop class_labels detections i argmax max_confidence lines
  = Returns (lines', argmax', max_confidence') ->
  (argmax', max_confidence') = select_loop detections i argmax max_confidence.
Proof.
  revert i argmax max_confidence lines.
  induction detections as [|d rest IH]; intros i argmax max_confidence lines; simpl.
  - by intros [= _ -> ->].
  - destruct (index class_labels (class_id d)) as [label|]; simpl; [|done].
    destruct (Float32.gt (confidence d) max_confidence); apply IH.
Qed.

(** C10: the running maximum starts at 0 and is replaced only by a
    strictly greater confidence. So for every detection list in which
    no confidence is strictly greater than 0, the selection stays at
    index 0 with maximum 0, whichever confidence is largest; the
    consumer's loop, which also reads the label of each Detection,
    selects index 0 whenever it gets through those reads; and
    processFrameAndInfer then reports the label at index 0, and does get
    through when there is a label for every Detection. *)
Theorem C10_best_defaults_to_index_0 (detections : list Detection) :
  Forall (fun d => Float32.gt (confidence d) Float32.zero = false) detections ->
  select_best detections = (0, Float32.zero)
  /\ (forall class_labels lines argmax max_confidence,
        report_loop class_labels detections 0 0 Float32.zero []
        = Returns (lines, argmax, max_confidence) ->
        argmax = 0 /\ max_confidence = Float32.zero)
  /\ (forall interpreter cv frame run report,
        runInference interpreter
          (cvtColor_BGR2RGB cv
             (resize cv frame (getInputWidth interpreter) (getInputHeight interpreter)))
        = Returns run ->
        run_detections run = detections ->
        processFrameAndInfer (Some interpreter) cv frame = Returns report ->
        report_detected report = getClassLabels interpreter !! 0%nat)
  /\ (forall interpreter cv frame run,
        runInference interpreter
          (cvtColor_BGR2RGB cv
             (resize cv frame (getInputWidth interpreter) (getInputHeight interpreter)))
        = Returns run ->
        run_detections run = detections ->
        (length detections <= length (getClassLabels interpreter))%nat ->
        getClassLabels interpreter <> [] ->
        exists report, processFrameAndInfer (Some interpreter) cv frame = Returns report).
Proof.
  intros Hall.
  pose proof (select_loop_nothing_positive detections 0 0 Hall) as Hselect.
  split; [exact Hselect|]. split; [|split].
  - intros class_labels lines argmax max_confidence Hloop.
    apply report_loop_selection in Hloop. rewrite Hselect in Hloop.
    by simplify_eq.
  - intros interpreter cv frame run report Hrun Hdets.
    unfold processFrameAndInfer. rewrite Hrun. simpl.
    destruct (runInference_for_consumer _ _ _ Hrun) as (-> & _ & _).
    rewrite Hdets.
    destruct (report_loop (getClassLabels interpreter) detections 0 0 Float32.zero [])
      as [[[lines argmax] max_confidence]|] eqn:Hloop; simpl; [|done].
    apply report_loop_selection in Hloop. rewrite Hselect in Hloop. simplify_eq.
    destruct (index (getClassLabels interpreter) 0) as [detected|] eqn:Hdetected;
      simpl; [|done].
    intros [= <-]. simpl. symmetry. by apply (index_returns _ 0).
  - intros interpreter cv frame run Hrun Hdets Hlen Hlabels.
    unfold processFrameAndInfer. rewrite Hrun. simpl.
    destruct (runInference_for_consumer _ _ _ Hrun) as (-> & Hids & _).
    rewrite Hdets in *.
    destruct (report_loop_in_range (getClassLabels interpreter) detections
                0 0 Float32.zero [] (positional_in_range _ _ Hids Hlen))
      as (lines & -> & _).
    rewrite Hselect. simpl.
    destruct (getClassLabels interpreter) as [|label rest]; [done|].
    simpl. by eexists.
Qed.

(** Two negative confidences, the larger one at index 1: index 0 is
    selected and its label reported. *)
Lemma C10_best_defaults_to_index_0_witness :
  select_best [{| class_id := 0; confidence := Float32.of_int (-20) |};
               {| class_id := 1; confidence := Float32.of_int (-5) |}]
  = (0, Float32.zero)
  /\ (forall report,
        processFrameAndInfer (Some (loaded (model_with_output negative_output)))
                             sample_cv sample_frame = Returns report ->
        report_detected report
        = getClassLabels (loaded (model_with_output negative_output)) !! 0%nat)
  /\ exists report,
       processFrameAndInfer (Some (loaded (model_with_output negative_output)))
                            sample_cv sample_frame = Returns report.
Proof.
  assert (Forall (fun d => Float32.gt (confidence d) Float32.zero = false)
            [{| class_id := 0; confidence := Float32.of_int (-20) |};
             {| class_id := 1; confidence := Float32.of_int (-5) |}]) as Hall
    by (repeat constructor).
  destruct (C10_best_defaults_to_index_0 _ Hall) as (Hselect & _ & Hreport & Hreturns).
  split; [exact Hselect|]. split.
  - intros report.
    apply (Hreport (loaded (model_with_output negative_output)) sample_cv sample_frame
             {| run_this := set_output_type (loaded (model_with_output negative_output))
                                            kTfLiteFloat32;
                run_input := Some (U8Data (replicate 3 "128"%byte));
                run_cerr := [];
                run_detections :=
                  [{| class_id := 0; confidence := Float32.of_int (-20) |};
                   {| class_id := 1; confidence := Float32.of_int (-5) |}] |}).
    + reflexivity.
    + reflexivity.
  - apply (Hreturns (loaded (model_with_output negative_output)) sample_cv sample_frame
             {| run_this := set_output_type (loaded (model_with_output negative_output))
                                            kTfLiteFloat32;
                run_input := Some (U8Data (replicate 3 "128"%byte));
                run_cerr := [];
                run_detections :=
                  [{| class_id := 0; confidence := Float32.of_int (-20) |};
                   {| class_id := 1; confidence := Float32.of_int (-5) |}] |}).
    + reflexivity.
    + reflexivity.
    + simpl. lia.
    + simpl. discriminate.
Defined.
